(** * The server-side renderer of aleph.js ([server/renderer.ts])

    A shallow embedding of [fetch] and [initSSR]: route matching, data
    loading with its data / error / redirect outcomes, the render callback
    and its failure path, the handlers bound to the HTML rewriter, and the
    response headers.

    The collaborators the renderer only calls (the [util] helpers, the
    dependency graph, the CSS bundler, the file system, [JSON]) are the
    fields of the class [Platform]; every theorem holds for all of them. *)

From Stdlib Require Import String Ascii List ZArith Bool Lia Permutation.
From Stdlib Require Import DecimalString.
Import ListNotations.

Local Open Scope Z_scope.
Local Open Scope list_scope.
Local Open Scope string_scope.

(** Template literals and [+] on strings. *)
Infix "+:+" := String.append (at level 60, right associativity).

(* ================================================================== *)
(** ** JavaScript values the renderer inspects *)

(** The double quote, for the markup the handlers emit. *)
Definition dq : string := String (ascii_of_nat 34) EmptyString.

(** The backtick of [Missing the `Location` header]. *)
Definition backtick : string := String (ascii_of_nat 96) EmptyString.

(** [number]: the values [dataCacheTtl] is tested against.  Finite numbers
    are the integers (a lifetime in seconds); [NaN] and the infinities are
    kept because the filter and [Math.min] treat them apart. *)
Inductive number : Type :=
| NaN
| NegInfinity
| Fin (z : Z)
| Infinity.

(** [a < b] on numbers; every comparison with [NaN] is false. *)
Definition number_ltb (a b : number) : bool :=
  match a, b with
  | NaN, _ | _, NaN => false
  | NegInfinity, NegInfinity => false
  | NegInfinity, _ => true
  | _, NegInfinity => false
  | Fin x, Fin y => Z.ltb x y
  | Fin _, Infinity => true
  | Infinity, _ => false
  end.

Definition number_gtb (a b : number) : bool := number_ltb b a.

Definition Number_isNaN (a : number) : bool :=
  match a with NaN => true | _ => false end.

(** [String(n)] for a number, as a template literal prints it. *)
Definition number_toString (a : number) : string :=
  match a with
  | NaN => "NaN"
  | NegInfinity => "-Infinity"
  | Fin z => NilZero.string_of_int (Z.to_int z)
  | Infinity => "Infinity"
  end.

(** [Math.min(...xs)]: [Infinity] for no argument, [NaN] as soon as one
    argument is [NaN]. *)
Definition min2 (a b : number) : number :=
  match a, b with
  | NaN, _ | _, NaN => NaN
  | _, _ => if number_ltb b a then b else a
  end.

Definition Math_min (xs : list number) : number := fold_left min2 xs Infinity.

(** JSON values ([res.json()], the hydration data, the route manifest). *)
#[local] Set Warnings "-register-all".
Inductive Json : Type :=
| JNull
| JBool (b : bool)
| JNumber (n : number)
| JString (s : string)
| JArray (xs : list Json)
| JObject (kvs : list (string * Json)).

(** A value the renderer passes along without looking inside (a module's
    default export). *)
Inductive Opaque : Type := opaque (label : string).

(** A thrown error; [stack] is what the fallback body prints. *)
Record JsError : Type := mkError { message : string; stack : string }.

(** The outcome of a call that may throw (or of a promise that may reject). *)
Inductive result (A : Type) : Type :=
| Ok (a : A)
| Throw (e : JsError).
Arguments Ok {A} a.
Arguments Throw {A} e.

Definition result_bind {A B} (r : result A) (k : A -> result B) : result B :=
  match r with
  | Ok a => k a
  | Throw e => Throw e
  end.

(** [Promise.all(xs.map(f))]: the results in the order of [xs]; it rejects
    when an element does (with the first one in list order here). *)
Fixpoint Promise_all {A B} (f : A -> result B) (xs : list A) : result (list B) :=
  match xs with
  | [] => Ok []
  | x :: rest =>
      result_bind (f x) (fun y =>
      result_bind (Promise_all f rest) (fun ys => Ok (y :: ys)))
  end.

(* ================================================================== *)
(** ** Strings *)

Definition ascii_lower (c : ascii) : ascii :=
  let n := nat_of_ascii c in
  if (Nat.leb 65 n && Nat.leb n 90)%bool then ascii_of_nat (n + 32) else c.

Fixpoint lowercase (s : string) : string :=
  match s with
  | EmptyString => EmptyString
  | String c rest => String (ascii_lower c) (lowercase rest)
  end.

(** [s.endsWith(suffix)]. *)
Definition endsWith (s suffix : string) : bool :=
  let n := String.length s in
  let k := String.length suffix in
  (Nat.leb k n && String.eqb (substring (n - k) k s) suffix)%bool.

(** [s.slice(1)]. *)
Definition slice1 (s : string) : string :=
  match s with
  | EmptyString => EmptyString
  | String _ rest => rest
  end.

(** [xs.join(sep)]. *)
Definition join (sep : string) (xs : list string) : string := String.concat sep xs.

(** [util.isFilledString] on a string. *)
Definition isFilledString (s : string) : bool :=
  match s with EmptyString => false | _ => true end.

(* ================================================================== *)
(** ** Headers, URLs, requests and responses *)

(** [Headers]: the pairs in insertion order; names are kept in lower case
    and looked up without regard to case. *)
Definition Headers : Type := list (string * string).

Definition named (name : string) (kv : string * string) : bool :=
  String.eqb (lowercase (fst kv)) (lowercase name).

Definition Headers_new (init : list (string * string)) : Headers :=
  map (fun kv => (lowercase (fst kv), snd kv)) init.

Definition Headers_append (h : Headers) (name value : string) : Headers :=
  (h ++ [(lowercase name, value)])%list.

Definition Headers_has (h : Headers) (name : string) : bool :=
  existsb (named name) h.

Definition Headers_get (h : Headers) (name : string) : option string :=
  match filter (named name) h with
  | [] => None
  | kvs => Some (join ", " (map snd kvs))
  end.

Record URL : Type := mkURL {
  url_host : string;
  url_pathname : string;
  url_search : string
}.

(** [new URL(path, base.href)] for an absolute [path]: the origin of the
    base, the given path, no query. *)
Definition URL_resolve (path : string) (base : URL) : URL :=
  {| url_host := url_host base; url_pathname := path; url_search := "" |}.

Record Request : Type := mkRequest {
  req_url : URL;            (* new URL(req.url) *)
  req_headers : Headers
}.

(** [new Request(url.toString(), req)]: the incoming request at another URL. *)
Definition Request_derive (u : URL) (req : Request) : Request :=
  {| req_url := u; req_headers := req_headers req |}.

Record Response : Type := mkResponse {
  res_body : option string;     (* None is a null body *)
  res_status : Z;
  res_headers : Headers
}.

(** [await res.text()]. *)
Definition Response_text (res : Response) : string :=
  match res_body res with
  | Some s => s
  | None => ""
  end.

Definition FetchContext : Type := list (string * Json).

(* ================================================================== *)
(** ** Routes *)

Definition Groups : Type := list (string * string).

Record URLPatternComponentResult : Type := mkComponent {
  input : string;
  groups : Groups
}.

Record URLPatternResult : Type := mkPatternResult {
  upr_host : URLPatternComponentResult;       (* ret.host *)
  upr_pathname : URLPatternComponentResult    (* ret.pathname *)
}.

(** A compiled pattern: whether a host and pathname match, and the named
    groups of the pathname when they do. *)
Record URLPattern : Type := mkPattern {
  pattern_match : string -> string -> option Groups
}.

(** [pattern.exec({ host, pathname })]: the result records its inputs. *)
Definition URLPattern_exec (p : URLPattern) (host pathname : string)
  : option URLPatternResult :=
  match pattern_match p host pathname with
  | Some g => Some {| upr_host := {| input := host; groups := [] |};
                      upr_pathname := {| input := pathname; groups := g |} |}
  | None => None
  end.

(** [RouteMeta]: [meta.pattern.pathname], [meta.nesting], [meta.filename]. *)
Record RouteMeta : Type := mkMeta {
  meta_pattern_pathname : string;
  nesting : bool;
  meta_filename : string
}.

(** What a data fetcher returns: a [Response], or anything else. *)
Inductive FetcherReturn : Type :=
| ReturnsResponse (res : Response)
| ReturnsOther.

(** [mod.data] when it is a plain object: [cacheTtl] and [get] (when it is
    a function). *)
Record DataConfig : Type := mkDataConfig {
  cacheTtl : option number;
  get : option (Request -> FetchContext -> result FetcherReturn)
}.

(** An imported route module: [mod.default] and [mod.data]. *)
Record ModuleExports : Type := mkExports {
  mod_default : option Opaque;        (* None is undefined *)
  mod_data : option DataConfig        (* None: not a plain object *)
}.

(** [Route = [pattern, loader, meta]]; [imp] is the outcome of [await imp()]. *)
Record Route : Type := mkRoute {
  pattern : URLPattern;
  imp : result ModuleExports;
  meta : RouteMeta
}.

Definition RouteMatch : Type := (URLPatternResult * Route)%type.

(** A module of the dependency graph, as the style collection reads it. *)
Record Module : Type := mkModule {
  specifier : string;
  inlineCSS : bool
}.

(* ================================================================== *)
(** ** The template *)

Definition Attributes : Type := list (string * string).

(** The template as the tokenizer reads it. *)
Inductive Node : Type :=
| Text (s : string)                                         (* text, comments, doctype *)
| VoidElem (tag : string) (attrs : Attributes)              (* no end tag *)
| Elem (tag : string) (attrs : Attributes) (children : list Node).

(* ================================================================== *)
(** ** The collaborators *)

Class Platform : Type := {
  (* lib/url.ts: the synthetic match of a route, from a host and a pathname *)
  createStaticURLPatternResult : string -> string -> URLPatternResult;
  (* lib/util.ts, lib/path.ts, server/config.ts *)
  splitPath : string -> list string;
  appendUrlParams : URL -> Groups -> URL;
  isLikelyHttpURL : string -> bool;
  cleanPath : string -> string;
  toLocalPath : string -> string;
  getAlephPkgUri : string;
  (* JSON *)
  JSON_parse : string -> option Json;        (* None: it throws *)
  JSON_stringify : Json -> string;
  (* globalThis.serverDependencyGraph: the modules [walk] visits, in order *)
  serverDependencyGraph : option (string -> list Module);
  (* Deno.readTextFile, bundleCSS (its [code]), the atomic CSS generator
     (its [css]) *)
  readTextFile : string -> result string;
  bundleCSS : string -> string -> bool -> result string;
  unoGenerate : string -> string -> bool -> result string;
  (* Deno.lstat of index.html: its mtime as a UTC string, when it has one *)
  lstat_mtimeUTC : result (option string);
  (* lol_html: whether a selector other than a plain element name selects
     the element at a position (the child indices from the root) of a
     document *)
  selectorMatches : string -> list Node -> list nat -> bool
}.

(* ================================================================== *)
(** ** initSSR: the match list *)

Section Matching.
Context {P : Platform}.

(** [for (const route of routes) { const ret = ...; if (ret) { push; break } }] *)
Fixpoint firstMatch (try : Route -> option URLPatternResult) (routes : list Route)
  : list RouteMatch :=
  match routes with
  | [] => []
  | route :: rest =>
      match try route with
      | Some ret => [(ret, route)]
      | None => firstMatch try rest
      end
  end.

(** The pathnames of the ancestor search, longest first:
    ["/" + parts.slice(0, i).join("/")] for [i] from [parts.length - 1]
    down to [1]. *)
Definition ancestorPathnames (parts : list string) : list string :=
  map (fun i => "/" +:+ join "/" (firstn i parts))
      (rev (seq 1 (length parts - 1))).

(** [for (let i = ...) { const ret = pattern.exec(...); if (ret) { push; break } }] *)
Fixpoint firstAncestor (host : string) (route : Route) (pathnames : list string)
  : list RouteMatch :=
  match pathnames with
  | [] => []
  | pathname :: rest =>
      match URLPattern_exec (pattern route) host pathname with
      | Some ret => [(ret, route)]
      | None => firstAncestor host route rest
      end
  end.

(** The body of [routes.forEach]: what one route pushes. *)
Definition scanRoute (url : URL) (routes : list Route) (route : Route)
  : list RouteMatch :=
  match URLPattern_exec (pattern route) (url_host url) (url_pathname url) with
  | Some ret =>
      (ret, route) ::
      (if (nesting (meta route)
           && negb (String.eqb (meta_pattern_pathname (meta route)) "/_app"))%bool
       then firstMatch
              (fun r => URLPattern_exec (pattern r) (url_host url)
                          (url_pathname url +:+ "/index"))
              routes
       else [])
  | None =>
      if nesting (meta route)
      then firstAncestor (url_host url) route
             (ancestorPathnames (splitPath (url_pathname url)))
      else []
  end.

Definition scanRoutes (url : URL) (routes : list Route) : list RouteMatch :=
  flat_map (scanRoute url routes) routes.

(** [for (const route of routes) if (route[2].pattern.pathname === name) ...] *)
Definition findByPatternPathname (name : string) (routes : list Route) : option Route :=
  find (fun r => String.eqb (meta_pattern_pathname (meta r)) name) routes.

Definition isLeaf (m : RouteMatch) : bool := negb (nesting (meta (snd m))).

(** Lines 259-266: the not-found fallback. *)
Definition withNotFound (url : URL) (routes : list Route) (matches : list RouteMatch)
  : list RouteMatch :=
  if Nat.eqb (length (filter isLeaf matches)) 0
  then match findByPatternPathname "/_404" routes with
       | Some route =>
           (matches ++ [(createStaticURLPatternResult (url_host url) "/_404", route)])%list
       | None => matches
       end
  else matches.

(** Lines 268-275: the root layout. *)
Definition withRootLayout (url : URL) (routes : list Route) (matches : list RouteMatch)
  : list RouteMatch :=
  match matches with
  | [] => []
  | first :: _ =>
      if negb (String.eqb (input (upr_pathname (fst first))) "/_app")
      then match findByPatternPathname "/_app" routes with
           | Some route =>
               (createStaticURLPatternResult (url_host url) "/_app", route) :: matches
           | None => matches
           end
      else matches
  end.

(** The match list of [initSSR], as it stands when the modules are loaded. *)
Definition matchRoutes (url : URL) (routes : list Route) : list RouteMatch :=
  match routes with
  | [] => []
  | _ => withRootLayout url routes (withNotFound url routes (scanRoutes url routes))
  end.

(** A match the scan records: a result of the pattern of its own route, on
    the request host and on the request path, the request path followed by
    [/index], or an ancestor of the request path. *)
Definition recordedBy (url : URL) (table : list Route) (m : RouteMatch) : Prop :=
  In (snd m) table
  /\ exists pathname,
       URLPattern_exec (pattern (snd m)) (url_host url) pathname = Some (fst m)
       /\ (pathname = url_pathname url
           \/ pathname = url_pathname url +:+ "/index"
           \/ In pathname (ancestorPathnames (splitPath (url_pathname url)))).

End Matching.

(* ================================================================== *)
(** ** initSSR: loading the modules *)

Record ErrorInfo : Type := mkErrorInfo {
  err_message : string;
  err_status : Z
}.

Record Redirect : Type := mkRedirect {
  redirect_headers : Headers;
  redirect_status : Z
}.

Record SSRModule : Type := mkSSRModule {
  ssr_url : URL;
  filename : string;
  defaultExport : option Opaque;
  dataCacheTtl : option number;
  data : option Json;
  error : option ErrorInfo;
  redirect : option Redirect
}.

Definition set_data (m : SSRModule) (d : Json) : SSRModule :=
  {| ssr_url := ssr_url m; filename := filename m; defaultExport := defaultExport m;
     dataCacheTtl := dataCacheTtl m; data := Some d; error := error m;
     redirect := redirect m |}.

Definition set_error (m : SSRModule) (e : ErrorInfo) : SSRModule :=
  {| ssr_url := ssr_url m; filename := filename m; defaultExport := defaultExport m;
     dataCacheTtl := dataCacheTtl m; data := data m; error := Some e;
     redirect := redirect m |}.

Definition set_redirect (m : SSRModule) (r : Redirect) : SSRModule :=
  {| ssr_url := ssr_url m; filename := filename m; defaultExport := defaultExport m;
     dataCacheTtl := dataCacheTtl m; data := data m; error := error m;
     redirect := Some r |}.

Section Loading.
Context {P : Platform}.

(** Lines 292-310: what a [Response] returned by the fetcher does to the
    module. *)
Definition applyResponse (ssrModule : SSRModule) (res : Response) : SSRModule :=
  if res_status res >=? 400
  then set_error ssrModule
         {| err_message := Response_text res; err_status := res_status res |}
  else if res_status res >=? 300
  then if Headers_has (res_headers res) "Location"
       then set_redirect ssrModule
              {| redirect_headers := res_headers res; redirect_status := res_status res |}
       else set_error ssrModule
              {| err_message := "Missing the " +:+ backtick +:+ "Location" +:+ backtick +:+ " header";
                 err_status := 400 |}
  else match JSON_parse (Response_text res) with
       | Some d => set_data ssrModule d
       | None => set_error ssrModule
                   {| err_message := "Data must be valid JSON"; err_status := 400 |}
       end.

(** [util.isPlainObject(mod.data) ? mod.data : {}]. *)
Definition dataConfigOf (imported : ModuleExports) : DataConfig :=
  match mod_data imported with
  | Some d => d
  | None => {| cacheTtl := None; get := None |}
  end.

(** [util.appendUrlParams(new URL(ret.pathname.input, url.href), ret.pathname.groups)]. *)
Definition moduleUrl (url : URL) (ret : URLPatternResult) : URL :=
  appendUrlParams (URL_resolve (input (upr_pathname ret)) url) (groups (upr_pathname ret)).

(** Lines 276-313: the callback of [matches.map]. *)
Definition loadModule (req : Request) (ctx : FetchContext) (url : URL) (m : RouteMatch)
  : result SSRModule :=
  let ret := fst m in
  let route := snd m in
  result_bind (imp route) (fun imported =>
  let dataConfig := dataConfigOf imported in
  let ssrModule :=
    {| ssr_url := moduleUrl url ret;
       filename := meta_filename (meta route);
       defaultExport := mod_default imported;
       dataCacheTtl := cacheTtl dataConfig;
       data := None; error := None; redirect := None |} in
  match get dataConfig with
  | Some fetcher =>
      result_bind (fetcher (Request_derive (ssr_url ssrModule) req) ctx) (fun res =>
      match res with
      | ReturnsResponse res => Ok (applyResponse ssrModule res)
      | ReturnsOther => Ok ssrModule
      end)
  | None => Ok ssrModule
  end).

Definition hasDefaultExport (m : SSRModule) : bool :=
  match defaultExport m with Some _ => true | None => false end.

(** The modules as loaded, before the [defaultExport] filter. *)
Definition loadModules (req : Request) (ctx : FetchContext) (routes : list Route)
  : result (list SSRModule) :=
  Promise_all (loadModule req ctx (req_url req)) (matchRoutes (req_url req) routes).

Definition initSSR (req : Request) (ctx : FetchContext) (routes : list Route)
  : result (URL * list SSRModule) :=
  let url := req_url req in
  match matchRoutes url routes with
  | [] => Ok (url, [])
  | _ :: _ =>
      result_bind (loadModules req ctx routes) (fun modules =>
      Ok (url, filter hasDefaultExport modules))
  end.

End Loading.

(* ================================================================== *)
(** ** The HTML rewriter

    The streaming rewriter (lol_html) is a capability the renderer uses; it
    is modelled on the parsed template.  One pass visits the elements in
    document order; on each element the handlers whose selector selects it
    fire in registration order; the content they insert is emitted around
    the element.  A selector that is a plain element name, as are all the
    selectors the renderer binds itself, selects the elements of that name;
    what any other selector selects is left to [selectorMatches]. *)

(** The [Element] a handler receives, with the mutations recorded so far. *)
Record Element : Type := mkElement {
  tagName : string;
  attributes : Attributes;
  content_before : list string;
  content_after : list string;
  content_appended : list string;
  replacement : option string;
  removed : bool
}.

Definition newElement (tag : string) (attrs : Attributes) : Element :=
  {| tagName := tag; attributes := attrs; content_before := []; content_after := [];
     content_appended := []; replacement := None; removed := false |}.

Definition getAttribute (el : Element) (name : string) : option string :=
  match find (fun kv => String.eqb (fst kv) name) (attributes el) with
  | Some kv => Some (snd kv)
  | None => None
  end.

Fixpoint setAttr (attrs : Attributes) (name value : string) : Attributes :=
  match attrs with
  | [] => [(name, value)]
  | kv :: rest =>
      if String.eqb (fst kv) name then (name, value) :: rest
      else kv :: setAttr rest name value
  end.

Definition setAttribute (el : Element) (name value : string) : Element :=
  {| tagName := tagName el; attributes := setAttr (attributes el) name value;
     content_before := content_before el; content_after := content_after el;
     content_appended := content_appended el; replacement := replacement el;
     removed := removed el |}.

(** [el.before(html)]: later calls come after earlier ones. *)
Definition before (el : Element) (html : string) : Element :=
  {| tagName := tagName el; attributes := attributes el;
     content_before := (content_before el ++ [html])%list;
     content_after := content_after el;
     content_appended := content_appended el; replacement := replacement el;
     removed := removed el |}.

(** [el.after(html)]: later calls come before earlier ones. *)
Definition after (el : Element) (html : string) : Element :=
  {| tagName := tagName el; attributes := attributes el;
     content_before := content_before el;
     content_after := html :: content_after el;
     content_appended := content_appended el; replacement := replacement el;
     removed := removed el |}.

(** [el.append(html)]: before the end tag, later calls after earlier ones. *)
Definition append (el : Element) (html : string) : Element :=
  {| tagName := tagName el; attributes := attributes el;
     content_before := content_before el; content_after := content_after el;
     content_appended := (content_appended el ++ [html])%list;
     replacement := replacement el; removed := removed el |}.

(** [el.replace(html)]: the element and its content give way to [html]. *)
Definition replace (el : Element) (html : string) : Element :=
  {| tagName := tagName el; attributes := attributes el;
     content_before := content_before el; content_after := content_after el;
     content_appended := content_appended el;
     replacement := Some html; removed := true |}.

(** [el.remove()]. *)
Definition remove (el : Element) : Element :=
  {| tagName := tagName el; attributes := attributes el;
     content_before := content_before el; content_after := content_after el;
     content_appended := content_appended el;
     replacement := replacement el; removed := true |}.

(** The flags the handler objects of one [fetch] call carry:
    [scriptHandler.nomoduleInserted] and [commonHandler.handled].  The one
    [commonHandler] object is bound to two selectors, so its flag is shared
    between them. *)
Record HandlerFlags : Type := mkFlags {
  nomoduleInserted : bool;
  handled : bool
}.

Definition Handler : Type := HandlerFlags -> Element -> HandlerFlags * Element.

(** [rewriter.on(selector, handlers)], in registration order. *)
Definition Registrations : Type := list (string * Handler).

Definition isLetter (c : ascii) : bool :=
  let n := nat_of_ascii c in
  ((Nat.leb 65 n && Nat.leb n 90) || (Nat.leb 97 n && Nat.leb n 122))%bool.

Definition isNameChar (c : ascii) : bool :=
  let n := nat_of_ascii c in
  (isLetter c || (Nat.leb 48 n && Nat.leb n 57) || Nat.eqb n 45 || Nat.eqb n 95)%bool.

Fixpoint allNameChars (s : string) : bool :=
  match s with
  | EmptyString => true
  | String c rest => (isNameChar c && allNameChars rest)%bool
  end.

(** A selector that is a plain element name: a letter, then letters,
    digits, [-] or [_]. *)
Definition isElementName (selector : string) : bool :=
  match selector with
  | EmptyString => false
  | String c rest => (isLetter c && allNameChars rest)%bool
  end.

Definition attrText (kv : string * string) : string :=
  " " +:+ fst kv +:+ "=" +:+ dq +:+ snd kv +:+ dq.

Definition startTag (el : Element) : string :=
  "<" +:+ tagName el +:+ String.concat "" (map attrText (attributes el)) +:+ ">".

Definition endTag (el : Element) : string := "</" +:+ tagName el +:+ ">".

Definition replacementChunks (el : Element) : list string :=
  match replacement el with
  | Some html => [html]
  | None => []
  end.

Section Rewriter.
Context {P : Platform}.

(** Whether a selector selects the element of name [tag] at [path] in
    [doc].  Element names are compared without regard to case. *)
Definition selects (selector : string) (doc : list Node) (path : list nat)
    (tag : string) : bool :=
  if isElementName selector
  then String.eqb (lowercase selector) (lowercase tag)
  else selectorMatches selector doc path.

Definition fireOne (doc : list Node) (path : list nat) (tag : string)
    (acc : HandlerFlags * Element) (reg : string * Handler)
  : HandlerFlags * Element :=
  if selects (fst reg) doc path tag
  then snd reg (fst acc) (snd acc)
  else acc.

(** The handlers of one element, in registration order.  Selectors are
    matched against the element as the tokenizer read it. *)
Definition fire (regs : Registrations) (doc : list Node) (path : list nat)
    (flags : HandlerFlags) (el : Element) : HandlerFlags * Element :=
  fold_left (fireOne doc path (tagName el)) regs (flags, el).

(** One pass over the node at [path]: the flags after it and the chunks
    it emits.  A removed element is not descended into. *)
Fixpoint rewriteNode (regs : Registrations) (doc : list Node) (path : list nat)
    (n : Node) (flags : HandlerFlags) {struct n} : HandlerFlags * list string :=
  match n with
  | Text s => (flags, [s])
  | VoidElem tag attrs =>
      let fired := fire regs doc path flags (newElement tag attrs) in
      let el := snd fired in
      (fst fired,
       (content_before el
        ++ (if removed el then replacementChunks el else [startTag el])
        ++ content_after el)%list)
  | Elem tag attrs children =>
      let fired := fire regs doc path flags (newElement tag attrs) in
      let el := snd fired in
      if removed el
      then (fst fired, (content_before el ++ replacementChunks el ++ content_after el)%list)
      else
        let inner :=
          (fix rewriteChildren (ns : list Node) (index : nat) (fl : HandlerFlags)
             : HandlerFlags * list string :=
             match ns with
             | [] => (fl, [])
             | c :: rest =>
                 let r1 := rewriteNode regs doc (path ++ [index])%list c fl in
                 let r2 := rewriteChildren rest (S index) (fst r1) in
                 (fst r2, (snd r1 ++ snd r2)%list)
             end) children 0%nat (fst fired) in
        (fst inner,
         (content_before el ++ [startTag el] ++ snd inner
          ++ content_appended el ++ [endTag el] ++ content_after el)%list)
  end.

(** The nodes [ns], children of the node at [parent] from [index] on. *)
Fixpoint rewriteNodes (regs : Registrations) (doc : list Node) (parent : list nat)
    (index : nat) (ns : list Node) (flags : HandlerFlags)
  : HandlerFlags * list string :=
  match ns with
  | [] => (flags, [])
  | c :: rest =>
      let r1 := rewriteNode regs doc (parent ++ [index])%list c flags in
      let r2 := rewriteNodes regs doc parent (S index) rest (fst r1) in
      (fst r2, (snd r1 ++ snd r2)%list)
  end.

(** [rewriter.write(...); rewriter.end()]: the chunks pushed by the sink. *)
Definition HTMLRewriter_run (regs : Registrations) (doc : list Node) : list string :=
  snd (rewriteNodes regs doc [] 0%nat doc
         {| nomoduleInserted := false; handled := false |}).

End Rewriter.

(** [concat(...chunks)]. *)
Definition concat (chunks : list string) : string := String.concat "" chunks.

(** The successive calls the rewriter makes to one handler object, on the
    elements it selects in document order: each call finds the flags as
    the previous one left them. *)
Fixpoint visitAll (h : Handler) (flags : HandlerFlags) (els : list Element)
  : HandlerFlags * list Element :=
  match els with
  | [] => (flags, [])
  | el :: rest =>
      let visited := h flags el in
      let others := visitAll h (fst visited) rest in
      (fst others, snd visited :: snd others)
  end.


(* ================================================================== *)
(** ** fetch: options, the render callback, the calls it makes *)

Record SSRContext : Type := mkSSRContext {
  ctx_url : URL;
  ctx_modules : list SSRModule;
  headCollection : list string
}.

(** What a call of [ssrHandler] does: the head collection as it left it,
    and whether it returned a string ([Ok (Some _)]), returned something
    else ([Ok None]) or threw. *)
Record RenderOutcome : Type := mkOutcome {
  headCollection_after : list string;
  completion : result (option string)
}.

Record RenderOptions : Type := mkOptions {
  indexHtml : list Node;
  routes : list Route;
  isDev : bool;
  customHTMLRewriter : list (string * (Element -> Element));
  hmrWebSocketUrl : option string;
  ssrHandler : option (SSRContext -> RenderOutcome)
}.

(** The calls [fetch] makes to its collaborators, in the order made. *)
Inductive Call : Type :=
| CallInitWasm
| CallSsrHandler (ctx : SSRContext)
| CallLstat
| CallRewriterWrite (selectors : list string).

(** The module-level flag [lolHtmlReady] and the calls made so far. *)
Record World : Type := mkWorld {
  lolHtmlReady : bool;
  calls : list Call
}.

(** Computations that read and write the world and may throw. *)
Definition M (A : Type) : Type := World -> result A * World.

Definition ret {A} (a : A) : M A := fun w => (Ok a, w).

Definition bind {A B} (m : M A) (k : A -> M B) : M B :=
  fun w =>
    match m w with
    | (Ok a, w') => k a w'
    | (Throw e, w') => (Throw e, w')
    end.

Definition lift {A} (r : result A) : M A := fun w => (r, w).

Definition tryCatch {A} (body : M A) (handler : JsError -> M A) : M A :=
  fun w =>
    match body w with
    | (Ok a, w') => (Ok a, w')
    | (Throw e, w') => handler e w'
    end.

Definition call (c : Call) : M unit :=
  fun w => (Ok tt, {| lolHtmlReady := lolHtmlReady w; calls := (calls w ++ [c])%list |}).

(** The world after some more calls. *)
Definition logged (w : World) (cs : list Call) : World :=
  {| lolHtmlReady := lolHtmlReady w; calls := (calls w ++ cs)%list |}.

Notation "x <- m ;; k" := (bind m (fun x => k))
  (at level 61, m at next level, right associativity).
Notation "m ;; k" := (bind m (fun _ => k))
  (at level 61, right associativity).

(** Either [fetch] has returned a response, or it goes on with [a]. *)
Inductive Flow (A : Type) : Type :=
| Return (r : Response)
| Next (a : A).
Arguments Return {A} r.
Arguments Next {A} a.

(** Lines 27-30.  The initialisation of the rewriter is taken to resolve:
    a run in which [initWasm] rejects, where [fetch] rejects at l.28 with
    the flag still unset, is not a run of this model. *)
Definition ensureLolHtml : M unit :=
  fun w =>
    if lolHtmlReady w then (Ok tt, w)
    else (Ok tt, {| lolHtmlReady := true; calls := (calls w ++ [CallInitWasm])%list |}).

(** The world [ensureLolHtml] leaves. *)
Definition ready (w : World) : World := snd (ensureLolHtml w).

Definition nonCacheable : string := "public, max-age=0, must-revalidate".

Definition nat_toString (n : nat) : string := NilZero.string_of_uint (Nat.to_uint n).

(** [xs.map((x, idx) => f(x, idx))]. *)
Fixpoint mapi_from {A B} (i : nat) (f : A -> nat -> B) (xs : list A) : list B :=
  match xs with
  | [] => []
  | x :: rest => f x i :: mapi_from (S i) f rest
  end.

Definition mapi {A B} (f : A -> nat -> B) (xs : list A) : list B := mapi_from 0 f xs.

(** A property of an object literal; [JSON.stringify] leaves out the ones
    whose value is undefined. *)
Definition property (key : string) (value : option Json) : list (string * Json) :=
  match value with
  | Some j => [(key, j)]
  | None => []
  end.

Section Fetch.
Context {P : Platform}.

(* ------------------------------------------------------------------ *)
(** *** Lines 42-46: the redirect scan *)

Definition firstRedirect (modules : list SSRModule) : option Redirect :=
  match find (fun m => match redirect m with Some _ => true | None => false end) modules with
  | Some m => redirect m
  | None => None
  end.

(* ------------------------------------------------------------------ *)
(** *** Lines 52-82: the styles of the rendered modules *)

Definition isStyleModule (m : Module) : bool :=
  (inlineCSS m || endsWith (specifier m) ".css")%bool.

Definition styleModules (modules : list SSRModule) : list Module :=
  flat_map
    (fun m =>
       match serverDependencyGraph with
       | Some walk => filter isStyleModule (walk (filename m))
       | None => []
       end)
    modules.

Definition styleTag (id css : string) : string :=
  "<style data-module-id=" +:+ dq +:+ id +:+ dq +:+ ">" +:+ css +:+ "</style>".

Definition styleOf (dev : bool) (m : Module) : result string :=
  result_bind (readTextFile (specifier m)) (fun rawCode =>
  if endsWith (specifier m) ".css"
  then result_bind (bundleCSS (specifier m) rawCode (negb dev)) (fun code =>
       Ok (styleTag (specifier m) code))
  else if inlineCSS m
  then result_bind (unoGenerate rawCode (specifier m) (negb dev)) (fun css =>
       if isFilledString css then Ok (styleTag (specifier m) css) else Ok "")
  else Ok "").

Definition collectStyles (dev : bool) (modules : list SSRModule) : result (list string) :=
  match modules with
  | [] => Ok []
  | _ :: _ => Promise_all (styleOf dev) (styleModules modules)
  end.

(* ------------------------------------------------------------------ *)
(** *** Lines 83-112: the handlers of a successful render *)

Definition importStmt (m : SSRModule) (idx : nat) : string :=
  "import mod_" +:+ nat_toString idx +:+ " from "
  +:+ JSON_stringify (JString (slice1 (filename m))) +:+ ";".

Definition routeModuleEntry (m : SSRModule) (idx : nat) : string :=
  JSON_stringify (JString (filename m)) +:+ ":mod_" +:+ nat_toString idx.

Definition errorJson (e : ErrorInfo) : Json :=
  JObject [("message", JString (err_message e)); ("status", JNumber (Fin (err_status e)))].

Definition ssrDataRecord (m : SSRModule) : Json :=
  JObject
    ([("url", JString (url_pathname (ssr_url m) +:+ url_search (ssr_url m)));
      ("module", JString (filename m))]
     ++ property "error" (option_map errorJson (error m))
     ++ property "data" (data m)
     ++ property "dataCacheTtl" (option_map JNumber (dataCacheTtl m)))%list.

Definition ssrDataScript (modules : list SSRModule) : string :=
  "<script id=" +:+ dq +:+ "ssr-data" +:+ dq +:+ " type=" +:+ dq +:+ "application/json"
  +:+ dq +:+ ">" +:+ JSON_stringify (JArray (map ssrDataRecord modules)) +:+ "</script>".

Definition routeModulesScript (modules : list SSRModule) : string :=
  "<script type=" +:+ dq +:+ "module" +:+ dq +:+ ">"
  +:+ join "" (mapi importStmt modules)
  +:+ "window.__ROUTE_MODULES={" +:+ join "," (mapi routeModuleEntry modules)
  +:+ "};</script>".

Definition ssrHeadHandler (headCollection : list string) (modules : list SSRModule)
  : Handler :=
  fun flags el =>
    let el1 :=
      fold_left (fun e h => if isFilledString h then before e h else e) headCollection el in
    let el2 :=
      match modules with
      | [] => el1
      | _ :: _ => before (before el1 (ssrDataScript modules)) (routeModulesScript modules)
      end in
    (flags, remove el2).

Definition ssrBodyHandler (ssrOutput : string) : Handler :=
  fun flags el => (flags, replace el ssrOutput).

(** What a successful render binds to the rewriter. *)
Definition renderedRegistrations (headCollection : list string)
    (modules : list SSRModule) (ssrOutput : string) : Registrations :=
  [("ssr-head", ssrHeadHandler headCollection modules);
   ("ssr-body", ssrBodyHandler ssrOutput)].

(* ------------------------------------------------------------------ *)
(** *** Lines 113-122: the cache policy of a successful render *)

Definition hasTtl (m : SSRModule) : bool :=
  match dataCacheTtl m with
  | Some n => (negb (Number_isNaN n) && number_gtb n (Fin 0))%bool
  | None => false
  end.

(** [Number(dataCacheTtl)]. *)
Definition Number (v : option number) : number :=
  match v with
  | Some n => n
  | None => NaN
  end.

Definition ttlsOf (modules : list SSRModule) : list number :=
  map (fun m => Number (dataCacheTtl m)) (filter hasTtl modules).

Definition cacheControl (modules : list SSRModule) : string :=
  let ttls := ttlsOf modules in
  if Nat.ltb 1 (length ttls)
  then "public, max-age=" +:+ number_toString (Math_min ttls)
  else if Nat.eqb (length ttls) 1
  then "public, max-age=" +:+ match ttls with
                              | t :: _ => number_toString t
                              | [] => "undefined"
                              end
  else nonCacheable.

(* ------------------------------------------------------------------ *)
(** *** Lines 125-138: the handlers after a failed render *)

Definition ssrHeadFallback : Handler :=
  fun flags el => (flags, remove el).

Definition ssrBodyFallback (error : JsError) : Handler :=
  fun flags el => (flags, replace el ("<code><pre>" +:+ stack error +:+ "</pre></code>")).

(** What the [catch] binds to the rewriter. *)
Definition fallbackRegistrations (error : JsError) : Registrations :=
  [("ssr-head", ssrHeadFallback); ("ssr-body", ssrBodyFallback error)].

(* ------------------------------------------------------------------ *)
(** *** Lines 153-214: the handlers of every response *)

Definition hmrImport : string :=
  "import hot from " +:+ dq +:+ toLocalPath getAlephPkgUri +:+ "/framework/core/hmr.ts"
  +:+ dq +:+ ";".

Definition moduleScript (body : string) : string :=
  "<script type=" +:+ dq +:+ "module" +:+ dq +:+ ">" +:+ body +:+ "</script>".

Definition linkHandler (dev : bool) : Handler :=
  fun flags el =>
    match getAttribute el "href" with
    | Some href0 =>
        if isFilledString href0
        then
          let isUrl := isLikelyHttpURL href0 in
          let href := if isUrl then href0 else cleanPath href0 in
          let el1 := if isUrl then el else setAttribute el "href" href in
          if (endsWith href ".css" && negb isUrl && dev)%bool
          then
            let specifier := "." +:+ href in
            (flags,
             after (setAttribute el1 "data-module-id" specifier)
               (moduleScript
                  (hmrImport +:+ "hot(" +:+ JSON_stringify (JString specifier)
                   +:+ ").accept();")))
          else (flags, el1)
        else (flags, el)
    | None => (flags, el)
    end.

Definition nomoduleScript : string :=
  "<script nomodule src=" +:+ dq +:+ getAlephPkgUri +:+ "/lib/nomodule.js" +:+ dq
  +:+ "></script>".

Definition isModuleType (el : Element) : bool :=
  match getAttribute el "type" with
  | Some t => String.eqb t "module"
  | None => false
  end.

Definition scriptHandler : Handler :=
  fun flags el =>
    let el1 :=
      match getAttribute el "src" with
      | Some src =>
          if (isFilledString src && negb (isLikelyHttpURL src))%bool
          then setAttribute el "src" (cleanPath src)
          else el
      | None => el
      end in
    if (isModuleType el1 && negb (nomoduleInserted flags))%bool
    then ({| nomoduleInserted := true; handled := handled flags |},
          after el1 nomoduleScript)
    else (flags, el1).

Definition metaJson (m : RouteMeta) : Json :=
  JObject [("pattern", JObject [("pathname", JString (meta_pattern_pathname m))]);
           ("nesting", JBool (nesting m));
           ("filename", JString (meta_filename m))].

(** The route manifest: [JSON.stringify({ routes: routes.map((r) => r[2]) })]
    in its script tag. *)
Definition routeManifestScript (routes : list Route) : string :=
  "<script id=" +:+ dq +:+ "route-manifest" +:+ dq +:+ " type=" +:+ dq
  +:+ "application/json" +:+ dq +:+ ">"
  +:+ JSON_stringify (JObject [("routes", JArray (map (fun r => metaJson (meta r)) routes))])
  +:+ "</script>".

Definition hmrWebSocketUrlScript (url : string) : string :=
  "<script>window.__hmrWebSocketUrl=" +:+ JSON_stringify (JString url) +:+ ";</script>".

Definition hmrDeclineScript : string :=
  moduleScript (hmrImport +:+ "hot(" +:+ dq +:+ "./index.html" +:+ dq +:+ ").decline();").

(** Lines 189-214.  [handled] is set in the [isDev] branch only. *)
Definition commonHandler (routes : list Route) (dev : bool) (ws : option string)
  : Handler :=
  fun flags el =>
    if handled flags then (flags, el)
    else
      let el1 :=
        match routes with
        | [] => el
        | _ :: _ => append el (routeManifestScript routes)
        end in
      if dev
      then
        let el2 :=
          match ws with
          | Some url => if isFilledString url then append el1 (hmrWebSocketUrlScript url) else el1
          | None => el1
          end in
        ({| nomoduleInserted := nomoduleInserted flags; handled := true |},
         append el2 hmrDeclineScript)
      else (flags, el1).

(** A handler of [customHTMLRewriter], bound as it is. *)
Definition customHandler (h : Element -> Element) : Handler :=
  fun flags el => (flags, h el).

(** Lines 216-220: the registrations every response gets, after those of
    the render. *)
Definition commonRegistrations (options : RenderOptions) : Registrations :=
  (map (fun sh => (fst sh, customHandler (snd sh))) (customHTMLRewriter options)
   ++ [("link", linkHandler (isDev options));
       ("script", scriptHandler);
       ("head", commonHandler (routes options) (isDev options) (hmrWebSocketUrl options));
       ("body", commonHandler (routes options) (isDev options) (hmrWebSocketUrl options))])%list.

(* ------------------------------------------------------------------ *)
(** *** fetch *)

(** The locals the render leaves behind: [ssr], [headers], and what it has
    bound to the rewriter. *)
Definition Locals : Type := (bool * Headers * Registrations)%type.

(** Lines 48-138: the [try] and its [catch].  Nothing is bound and no
    header is appended before the last point where the [try] can throw, so
    the [catch] starts from the headers and the rewriter as they were. *)
Definition render (options : RenderOptions) (h : SSRContext -> RenderOutcome)
    (url : URL) (modules : list SSRModule) (headers : Headers) : M Locals :=
  tryCatch
    (let ctx := {| ctx_url := url; ctx_modules := modules; headCollection := [] |} in
     call (CallSsrHandler ctx) ;;
     ssrOutput <- lift (completion (h ctx)) ;;
     match ssrOutput with
     | Some ssrOutput =>
         styles <- lift (collectStyles (isDev options) modules) ;;
         let headCollection := (headCollection_after (h ctx) ++ styles)%list in
         ret (true,
              Headers_append headers "Cache-Control" (cacheControl modules),
              renderedRegistrations headCollection modules ssrOutput)
     | None => ret (false, headers, [])
     end)
    (fun error =>
       ret (true,
            Headers_append headers "Cache-Control" nonCacheable,
            fallbackRegistrations error)).

(** Lines 39-139. *)
Definition ssrPhase (req : Request) (ctx : FetchContext) (options : RenderOptions)
    (headers : Headers) : M (Flow Locals) :=
  match ssrHandler options with
  | Some h =>
      r <- lift (initSSR req ctx (routes options)) ;;
      match firstRedirect (snd r) with
      | Some redirect =>
          ret (Return {| res_body := None;
                         res_status := redirect_status redirect;
                         res_headers := redirect_headers redirect |})
      | None =>
          locals <- render options h (fst r) (snd r) headers ;;
          ret (Next locals)
      end
  | None => ret (Next (false, headers, []))
  end.

Definition sameHeader (a : option string) (b : string) : bool :=
  match a with
  | Some s => String.eqb s b
  | None => false
  end.

(** Lines 141-151. *)
Definition staticPhase (req : Request) (ssr : bool) (headers : Headers)
  : M (Flow Headers) :=
  if ssr then ret (Next headers)
  else
    call CallLstat ;;
    mtime <- lift lstat_mtimeUTC ;;
    match mtime with
    | Some mtimeUTC =>
        if sameHeader (Headers_get (req_headers req) "If-Modified-Since") mtimeUTC
        then ret (Return {| res_body := None; res_status := 304; res_headers := [] |})
        else ret (Next (Headers_append (Headers_append headers "Last-Modified" mtimeUTC)
                          "Cache-Control" nonCacheable))
    | None => ret (Next (Headers_append headers "Cache-Control" nonCacheable))
    end.

(** Lines 141-224: the static template when no render took place, then
    the rewriter pass and the response. *)
Definition respond (req : Request) (options : RenderOptions) (locals : Locals)
  : M Response :=
  let '(ssr, headers, registered) := locals in
  afterStatic <- staticPhase req ssr headers ;;
  match afterStatic with
  | Return response => ret response
  | Next headers =>
      let regs := (registered ++ commonRegistrations options)%list in
      call (CallRewriterWrite (map fst regs)) ;;
      ret {| res_body := Some (concat (HTMLRewriter_run regs (indexHtml options)));
             res_status := 200;
             res_headers := headers |}
  end.

(** The headers [fetch] starts from. *)
Definition initialHeaders : Headers :=
  Headers_new [("Content-Type", "text/html; charset=utf-8")].

Definition fetch (req : Request) (ctx : FetchContext) (options : RenderOptions)
  : M Response :=
  ensureLolHtml ;;
  afterSsr <- ssrPhase req ctx options initialHeaders ;;
  match afterSsr with
  | Return response => ret response
  | Next locals => respond req options locals
  end.

(* ------------------------------------------------------------------ *)
(** *** Closed forms of the phases, for the statements below *)

(** The locals a render leaves, by what the callback and the style
    collection did. *)
Definition localsAfter (options : RenderOptions) (h : SSRContext -> RenderOutcome)
    (url : URL) (modules : list SSRModule) (headers : Headers) : Locals :=
  let ctx := {| ctx_url := url; ctx_modules := modules; headCollection := [] |} in
  match completion (h ctx) with
  | Ok (Some ssrOutput) =>
      match collectStyles (isDev options) modules with
      | Ok styles =>
          (true, Headers_append headers "Cache-Control" (cacheControl modules),
           renderedRegistrations (headCollection_after (h ctx) ++ styles)%list modules ssrOutput)
      | Throw e =>
          (true, Headers_append headers "Cache-Control" nonCacheable, fallbackRegistrations e)
      end
  | Ok None => (false, headers, [])
  | Throw e =>
      (true, Headers_append headers "Cache-Control" nonCacheable, fallbackRegistrations e)
  end.

(** The response of the static template, by the modification time. *)
Definition staticResponse (req : Request) (options : RenderOptions)
    (mtime : option string) : Response :=
  match mtime with
  | Some mtimeUTC =>
      if sameHeader (Headers_get (req_headers req) "If-Modified-Since") mtimeUTC
      then {| res_body := None; res_status := 304; res_headers := [] |}
      else {| res_body :=
                Some (concat (HTMLRewriter_run (commonRegistrations options)
                                (indexHtml options)));
              res_status := 200;
              res_headers :=
                Headers_append (Headers_append initialHeaders "Last-Modified" mtimeUTC)
                  "Cache-Control" nonCacheable |}
  | None =>
      {| res_body :=
           Some (concat (HTMLRewriter_run (commonRegistrations options)
                           (indexHtml options)));
         res_status := 200;
         res_headers := Headers_append initialHeaders "Cache-Control" nonCacheable |}
  end.

(** The calls of the static template path: [lstat], then the rewriter
    unless the answer is 304. *)
Definition staticCalls (req : Request) (options : RenderOptions)
    (mtime : option string) : list Call :=
  CallLstat ::
  match mtime with
  | Some mtimeUTC =>
      if sameHeader (Headers_get (req_headers req) "If-Modified-Since") mtimeUTC
      then []
      else [CallRewriterWrite (map fst (commonRegistrations options))]
  | None => [CallRewriterWrite (map fst (commonRegistrations options))]
  end.

End Fetch.

(* ================================================================== *)
(** ** A concrete platform, routes and templates

    Used to run the definitions above on explicit inputs. *)

Module Demo.

(** Split a string at a separator character. *)
Fixpoint splitAt (sep : ascii) (s : string) (cur : string) : list string :=
  match s with
  | EmptyString => [cur]
  | String c rest =>
      if Ascii.eqb c sep then cur :: splitAt sep rest ""
      else splitAt sep rest (cur +:+ String c EmptyString)
  end.

Definition slash : ascii := ascii_of_nat 47.

Definition segments (path : string) : list string :=
  filter isFilledString (splitAt slash path "").

Fixpoint stringify (j : Json) : string :=
  match j with
  | JNull => "null"
  | JBool true => "true"
  | JBool false => "false"
  | JNumber (Fin z) => number_toString (Fin z)
  | JNumber _ => "null"
  | JString s => dq +:+ s +:+ dq
  | JArray xs => "[" +:+ join "," (map stringify xs) +:+ "]"
  | JObject kvs =>
      "{" +:+ join "," (map (fun kv => dq +:+ fst kv +:+ dq +:+ ":" +:+ stringify (snd kv)) kvs)
      +:+ "}"
  end.

Definition parse (s : string) : option Json :=
  if String.eqb s "null" then Some JNull
  else if String.eqb s "true" then Some (JBool true)
  else if String.eqb s "false" then Some (JBool false)
  else if String.eqb s "{}" then Some (JObject [])
  else if String.eqb s "[]" then Some (JArray [])
  else None.

Definition unreadable {A} (what : string) : result A :=
  Throw {| message := what; stack := "Error: " +:+ what |}.

(** Modelled from the spec: [createStaticURLPatternResult] of [lib/url.ts] is
    not among the sources.  The synthetic match records the given host and
    pathname as its inputs, with no groups. *)
Definition staticResult (host pathname : string) : URLPatternResult :=
  {| upr_host := {| input := host; groups := [] |};
     upr_pathname := {| input := pathname; groups := [] |} |}.

(** Of the selectors that are not element names, [*] alone selects
    something: every element. *)
Definition anyElement (selector : string) (doc : list Node) (path : list nat) : bool :=
  String.eqb selector "*".

(** Stand-ins for the collaborators. *)
Definition platform : Platform :=
  {| createStaticURLPatternResult := staticResult;
     splitPath := segments;
     appendUrlParams := fun u _ => u;
     isLikelyHttpURL := fun s => (prefix "http://" s || prefix "https://" s)%bool;
     cleanPath := fun s => "/" +:+ join "/" (segments s);
     toLocalPath := fun s => s;
     getAlephPkgUri := "https://deno.land/x/aleph";
     JSON_parse := parse;
     JSON_stringify := stringify;
     serverDependencyGraph := None;
     readTextFile := fun f => unreadable f;
     bundleCSS := fun f _ _ => unreadable f;
     unoGenerate := fun _ f _ => unreadable f;
     lstat_mtimeUTC := Ok (Some "Thu, 01 Jan 2026 00:00:00 GMT");
     selectorMatches := anyElement |}.

(** The pattern of a static route: exactly [path]. *)
Definition static (path : string) : URLPattern :=
  {| pattern_match := fun _ pathname => if String.eqb pathname path then Some [] else None |}.

(** The pattern [/:slug]: one non-empty segment. *)
Definition slug : URLPattern :=
  {| pattern_match := fun _ pathname =>
       match pathname with
       | String c rest =>
           if (Ascii.eqb c slash && isFilledString rest
               && Nat.eqb (length (splitAt slash rest "")) 1)%bool
           then Some [("slug", rest)]
           else None
       | EmptyString => None
       end |}.

Definition component (name : string) : ModuleExports :=
  {| mod_default := Some (opaque name); mod_data := None |}.

Definition appRoute : Route :=
  {| pattern := static "/_app";
     imp := Ok (component "App");
     meta := {| meta_pattern_pathname := "/_app"; nesting := true;
                meta_filename := "./routes/_app.tsx" |} |}.

Definition notFoundRoute : Route :=
  {| pattern := static "/_404";
     imp := Ok (component "NotFound");
     meta := {| meta_pattern_pathname := "/_404"; nesting := false;
                meta_filename := "./routes/_404.tsx" |} |}.

Definition indexRoute : Route :=
  {| pattern := static "/";
     imp := Ok (component "Index");
     meta := {| meta_pattern_pathname := "/"; nesting := false;
                meta_filename := "./routes/index.tsx" |} |}.

Definition slugRoute : Route :=
  {| pattern := slug;
     imp := Ok (component "Post");
     meta := {| meta_pattern_pathname := "/:slug"; nesting := false;
                meta_filename := "./routes/$slug.tsx" |} |}.

Definition request (path : string) : Request :=
  {| req_url := {| url_host := "localhost"; url_pathname := path; url_search := "" |};
     req_headers := [] |}.

Definition world : World := {| lolHtmlReady := true; calls := [] |}.

(** A site: a dynamic page, the root layout, the not-found page. *)
Definition site : list Route := [slugRoute; appRoute; notFoundRoute].

(** The match of [appRoute] on a request for [/_app]. *)
Definition appMatch : RouteMatch :=
  ({| upr_host := {| input := "localhost"; groups := [] |};
      upr_pathname := {| input := "/_app"; groups := [] |} |},
   appRoute).

(** The match of [slugRoute] on [pathname]. *)
Definition slugMatch (pathname : string) : RouteMatch :=
  ({| upr_host := {| input := "localhost"; groups := [] |};
      upr_pathname := {| input := pathname; groups := [("slug", slice1 pathname)] |} |},
   slugRoute).

(** A route whose data fetcher answers with [res]. *)
Definition dataRoute (path : string) (ttl : option number) (res : Response) : Route :=
  {| pattern := static path;
     imp := Ok {| mod_default := Some (opaque path);
                  mod_data := Some {| cacheTtl := ttl;
                                      get := Some (fun _ _ => Ok (ReturnsResponse res)) |} |};
     meta := {| meta_pattern_pathname := path; nesting := false;
                meta_filename := "./routes" +:+ path +:+ ".tsx" |} |}.

(** A 302 without a [Location] header. *)
Definition found : Response :=
  {| res_body := None; res_status := 302; res_headers := [] |}.

Definition loginRoute : Route := dataRoute "/login" None found.

(** A 302 to [/login]. *)
Definition moved : Response :=
  {| res_body := None; res_status := 302;
     res_headers := Headers_new [("Location", "/login")] |}.

Definition movedRoute : Route := dataRoute "/old" None moved.

(** The module [movedRoute] loads into. *)
Definition movedModule : SSRModule :=
  {| ssr_url := {| url_host := "localhost"; url_pathname := "/old"; url_search := "" |};
     filename := "./routes/old.tsx";
     defaultExport := Some (opaque "/old");
     dataCacheTtl := None;
     data := None;
     error := None;
     redirect := Some {| redirect_headers := [("location", "/login")];
                         redirect_status := 302 |} |}.

(** A route module with a cache lifetime and no data fetcher. *)
Definition cachedRoute (path name : string) (nested : bool) (ttl : Z) : Route :=
  {| pattern := static path;
     imp := Ok {| mod_default := Some (opaque name);
                  mod_data := Some {| cacheTtl := Some (Fin ttl); get := None |} |};
     meta := {| meta_pattern_pathname := path; nesting := nested;
                meta_filename := "./routes" +:+ path +:+ ".tsx" |} |}.

(** A blog: the root layout, the blog layout and its index page. *)
Definition blog : list Route :=
  [cachedRoute "/_app" "App" true 30;
   cachedRoute "/blog" "Blog" true 10;
   cachedRoute "/blog/index" "BlogIndex" false 20].

Definition cachedModule (pathname file name : string) (ttl : Z) : SSRModule :=
  {| ssr_url := {| url_host := "localhost"; url_pathname := pathname; url_search := "" |};
     filename := file;
     defaultExport := Some (opaque name);
     dataCacheTtl := Some (Fin ttl);
     data := None; error := None; redirect := None |}.

(** The modules of a request for [/blog]. *)
Definition blogModules : list SSRModule :=
  [cachedModule "/_app" "./routes/_app.tsx" "App" 30;
   cachedModule "/blog" "./routes/blog.tsx" "Blog" 10;
   cachedModule "/blog/index" "./routes/blog/index.tsx" "BlogIndex" 20].

(** A route whose module answers 302 to [/login] and exports no component. *)
Definition headlessRoute : Route :=
  {| pattern := static "/old";
     imp := Ok {| mod_default := None;
                  mod_data := Some {| cacheTtl := None;
                                      get := Some (fun _ _ => Ok (ReturnsResponse moved)) |} |};
     meta := {| meta_pattern_pathname := "/old"; nesting := false;
                meta_filename := "./routes/old.tsx" |} |}.

Definition headlessModule : SSRModule :=
  {| ssr_url := {| url_host := "localhost"; url_pathname := "/old"; url_search := "" |};
     filename := "./routes/old.tsx";
     defaultExport := None;
     dataCacheTtl := None;
     data := None;
     error := None;
     redirect := Some {| redirect_headers := [("location", "/login")];
                         redirect_status := 302 |} |}.

(** A template with both markers. *)
Definition template : list Node :=
  [Elem "html" []
     [Elem "head" [] [Elem "ssr-head" [] []];
      Elem "body" [] [Elem "ssr-body" [] []]]].

Definition options (table : list Route) (dev : bool)
    (handler : option (SSRContext -> RenderOutcome)) : RenderOptions :=
  {| indexHtml := template; routes := table; isDev := dev;
     customHTMLRewriter := []; hmrWebSocketUrl := None; ssrHandler := handler |}.

(** Render callbacks: one that returns markup, one that returns nothing,
    one that throws after pushing a head fragment. *)
Definition renders (markup : string) : SSRContext -> RenderOutcome :=
  fun _ => {| headCollection_after := ["<title>Hello</title>"];
              completion := Ok (Some markup) |}.

Definition skips : SSRContext -> RenderOutcome :=
  fun _ => {| headCollection_after := []; completion := Ok None |}.



(** The module of [slugRoute] on a request for [pathname]. *)
Definition slugModule (pathname : string) : SSRModule :=
  {| ssr_url := {| url_host := "localhost"; url_pathname := pathname; url_search := "" |};
     filename := "./routes/$slug.tsx";
     defaultExport := Some (opaque "Post");
     dataCacheTtl := None;
     data := None; error := None; redirect := None |}.

(** The module of [appRoute]. *)
Definition appModule : SSRModule :=
  {| ssr_url := {| url_host := "localhost"; url_pathname := "/_app"; url_search := "" |};
     filename := "./routes/_app.tsx";
     defaultExport := Some (opaque "App");
     dataCacheTtl := None;
     data := None; error := None; redirect := None |}.

Definition loginMatch : RouteMatch := (staticResult "localhost" "/login", loginRoute).

(** The module [loginRoute] loads into. *)
Definition loginModule : SSRModule :=
  {| ssr_url := req_url (request "/login");
     filename := "./routes/login.tsx";
     defaultExport := Some (opaque "/login");
     dataCacheTtl := None;
     data := None;
     error := Some {| err_message :=
                        "Missing the " +:+ backtick +:+ "Location" +:+ backtick +:+ " header";
                      err_status := 400 |};
     redirect := None |}.

(** A section layout: it matches [/docs] and, as an ancestor, what is
    below it. *)
Definition docsRoute : Route :=
  {| pattern := static "/docs";
     imp := Ok (component "Docs");
     meta := {| meta_pattern_pathname := "/docs"; nesting := true;
                meta_filename := "./routes/docs.tsx" |} |}.

(** A route whose module cannot be imported. *)
Definition brokenRoute : Route :=
  {| pattern := static "/broken";
     imp := unreadable "./routes/broken.tsx";
     meta := {| meta_pattern_pathname := "/broken"; nesting := false;
                meta_filename := "./routes/broken.tsx" |} |}.

(** A dependency graph in which every route module imports one style
    sheet. *)
Definition styleGraph : string -> list Module :=
  fun _ => [{| specifier := "./style/app.css"; inlineCSS := false |}].


(** The platform with that graph and a readable style sheet, bundled as it
    is. *)
Definition readableStyles : Platform :=
  {| createStaticURLPatternResult := staticResult;
     splitPath := segments;
     appendUrlParams := fun u _ => u;
     isLikelyHttpURL := fun s => (prefix "http://" s || prefix "https://" s)%bool;
     cleanPath := fun s => "/" +:+ join "/" (segments s);
     toLocalPath := fun s => s;
     getAlephPkgUri := "https://deno.land/x/aleph";
     JSON_parse := parse;
     JSON_stringify := stringify;
     serverDependencyGraph := Some styleGraph;
     readTextFile := fun _ => Ok "body{margin:0}";
     bundleCSS := fun _ raw _ => Ok raw;
     unoGenerate := fun raw _ _ => Ok raw;
     lstat_mtimeUTC := Ok (Some "Thu, 01 Jan 2026 00:00:00 GMT");
     selectorMatches := anyElement |}.



(** A custom handler bound to every element: it marks the element. *)
Definition customAny : list (string * (Element -> Element)) :=
  [("*", fun el => setAttribute el "data-seen" "1")].

(** [options] with that one. *)
Definition marked (table : list Route) (dev : bool)
    (handler : option (SSRContext -> RenderOutcome)) : RenderOptions :=
  {| indexHtml := template; routes := table; isDev := dev;
     customHTMLRewriter := customAny; hmrWebSocketUrl := None;
     ssrHandler := handler |}.

(** The platform on which [index.html] cannot be examined. *)
Definition missingTemplate : Platform :=
  {| createStaticURLPatternResult := staticResult;
     splitPath := segments;
     appendUrlParams := fun u _ => u;
     isLikelyHttpURL := fun s => (prefix "http://" s || prefix "https://" s)%bool;
     cleanPath := fun s => "/" +:+ join "/" (segments s);
     toLocalPath := fun s => s;
     getAlephPkgUri := "https://deno.land/x/aleph";
     JSON_parse := parse;
     JSON_stringify := stringify;
     serverDependencyGraph := None;
     readTextFile := fun f => unreadable f;
     bundleCSS := fun f _ _ => unreadable f;
     unoGenerate := fun _ f _ => unreadable f;
     lstat_mtimeUTC := unreadable "./index.html";
     selectorMatches := anyElement |}.

End Demo.

(* ================================================================== *)
(** * Properties *)

(** ** Helper facts *)

Lemma find_pattern_pathname (name : string) (routes : list Route) :
  (exists r, In r routes /\ meta_pattern_pathname (meta r) = name) ->
  exists route,
    findByPatternPathname name routes = Some route
    /\ In route routes
    /\ meta_pattern_pathname (meta route) = name.
Proof.
  intros [r [Hin Hname]]. unfold findByPatternPathname.
  destruct (find _ routes) as [route|] eqn:Hfind.
  - apply find_some in Hfind. destruct Hfind as [Hin' Heq].
    apply String.eqb_eq in Heq. exists route. auto.
  - apply (find_none _ _ Hfind) in Hin. simpl in Hin.
    rewrite Hname, String.eqb_refl in Hin. discriminate.
Qed.

Lemma Promise_all_In {A B} (f : A -> result B) (xs : list A) (ys : list B) :
  Promise_all f xs = Ok ys ->
  forall y, In y ys -> exists x, In x xs /\ f x = Ok y.
Proof.
  revert ys. induction xs as [|x rest IH]; simpl; intros ys H y Hy.
  - inversion H; subst. contradiction.
  - destruct (f x) as [b|e] eqn:Hfx; simpl in H; [|discriminate].
    destruct (Promise_all f rest) as [bs|e] eqn:Hrest; simpl in H; [|discriminate].
    inversion H; subst. destruct Hy as [Hy|Hy].
    + subst. exists x. auto.
    + destruct (IH bs eq_refl y Hy) as [x' [Hin Hx']]. exists x'. auto.
Qed.

(* ------------------------------------------------------------------ *)
(** ** The match list *)

Section MatchingFacts.
Context {P : Platform}.

(** Lines 267-275 decide on the pathname the first recorded match was made
    on.  When that pathname is not [/_app] and a route with pattern
    pathname [/_app] exists, the synthetic match of the first such route
    is put in front of the recorded matches. *)
Lemma root_layout_prepended (url : URL) (routes : list Route)
    (first : RouteMatch) (rest : list RouteMatch) :
  withNotFound url routes (scanRoutes url routes) = first :: rest ->
  (exists r, In r routes /\ meta_pattern_pathname (meta r) = "/_app") ->
  input (upr_pathname (fst first)) <> "/_app" ->
  exists layout,
    findByPatternPathname "/_app" routes = Some layout
    /\ meta_pattern_pathname (meta layout) = "/_app"
    /\ matchRoutes url routes
       = (createStaticURLPatternResult (url_host url) "/_app", layout) :: first :: rest.
Proof.
  intros Hrec Hex Hfirst.
  destruct (find_pattern_pathname "/_app" routes Hex) as [layout [Hfind [Hin Hname]]].
  exists layout. repeat split; trivial.
  unfold matchRoutes. destruct routes as [|r0 routes']; [contradiction|].
  rewrite Hrec. unfold withRootLayout.
  apply String.eqb_neq in Hfirst. rewrite Hfirst. cbn [negb]. now rewrite Hfind.
Qed.

(** When it is [/_app], the recorded matches are the match list. *)
Lemma root_layout_not_prepended (url : URL) (routes : list Route)
    (first : RouteMatch) (rest : list RouteMatch) :
  withNotFound url routes (scanRoutes url routes) = first :: rest ->
  input (upr_pathname (fst first)) = "/_app" ->
  matchRoutes url routes = first :: rest.
Proof.
  intros Hrec Hfirst.
  unfold matchRoutes. destruct routes as [|r0 routes'].
  - unfold withNotFound in Hrec. simpl in Hrec. discriminate.
  - rewrite Hrec. unfold withRootLayout. rewrite Hfirst. reflexivity.
Qed.

(** So, when a root layout route exists and something is recorded, the
    match list starts with a match of a root layout route exactly when the
    first recorded match was not made on [/_app], or was recorded by a
    root layout route itself. *)
Lemma root_layout_first_iff (url : URL) (routes : list Route)
    (first : RouteMatch) (rest : list RouteMatch) :
  withNotFound url routes (scanRoutes url routes) = first :: rest ->
  (exists r, In r routes /\ meta_pattern_pathname (meta r) = "/_app") ->
  (exists m ms,
     matchRoutes url routes = m :: ms
     /\ meta_pattern_pathname (meta (snd m)) = "/_app")
  <-> (input (upr_pathname (fst first)) <> "/_app"
       \/ meta_pattern_pathname (meta (snd first)) = "/_app").
Proof.
  intros Hrec Hex.
  destruct (String.eqb_spec (input (upr_pathname (fst first))) "/_app") as [Heq|Hne].
  - rewrite (root_layout_not_prepended url routes first rest Hrec Heq). split.
    + intros [m [ms [Hlist Hname]]]. injection Hlist as <- _. now right.
    + intros [Hne|Hname]; [contradiction|]. now exists first, rest.
  - destruct (root_layout_prepended url routes first rest Hrec Hex Hne)
      as [layout [_ [Hname Hlist]]].
    rewrite Hlist. split; [now left|]. intros _.
    now exists (createStaticURLPatternResult (url_host url) "/_app", layout),
               (first :: rest).
Qed.

(** C7 (as amended).  When the scan records no leaf match and a route with
    pattern pathname [/_404] exists, exactly one match is appended, and it
    is the last element of the match list: the synthetic match of the first
    such route, built by [createStaticURLPatternResult] from the request's
    host and the fixed pathname [/_404].  The request path does not enter
    it: every request on the same host gets the same synthetic match. *)
Theorem not_found_appended (url : URL) (routes : list Route) :
  length (filter isLeaf (scanRoutes url routes)) = 0%nat ->
  (exists r, In r routes /\ meta_pattern_pathname (meta r) = "/_404") ->
  exists notFound front,
    findByPatternPathname "/_404" routes = Some notFound
    /\ meta_pattern_pathname (meta notFound) = "/_404"
    /\ withNotFound url routes (scanRoutes url routes)
       = (scanRoutes url routes
          ++ [(createStaticURLPatternResult (url_host url) "/_404", notFound)])%list
    /\ matchRoutes url routes
       = (front ++ [(createStaticURLPatternResult (url_host url) "/_404", notFound)])%list
    /\ (forall url',
          url_host url' = url_host url ->
          length (filter isLeaf (scanRoutes url' routes)) = 0%nat ->
          withNotFound url' routes (scanRoutes url' routes)
          = (scanRoutes url' routes
             ++ [(createStaticURLPatternResult (url_host url) "/_404", notFound)])%list).
Proof.
  intros Hleaf Hex.
  destruct (find_pattern_pathname "/_404" routes Hex) as [notFound [Hfind [Hin Hname]]].
  assert (Hwith : forall url',
             url_host url' = url_host url ->
             length (filter isLeaf (scanRoutes url' routes)) = 0%nat ->
             withNotFound url' routes (scanRoutes url' routes)
             = (scanRoutes url' routes
                ++ [(createStaticURLPatternResult (url_host url) "/_404", notFound)])%list).
  { intros url' Hhost Hleaf'. unfold withNotFound. now rewrite Hleaf', Hfind, Hhost. }
  exists notFound.
  assert (Hfront : exists front,
             matchRoutes url routes
             = (front ++ [(createStaticURLPatternResult (url_host url) "/_404", notFound)])%list).
  { unfold matchRoutes. destruct routes as [|r0 routes']; [contradiction|].
    rewrite (Hwith url eq_refl Hleaf). unfold withRootLayout.
    destruct (scanRoutes url (r0 :: routes')
              ++ [(createStaticURLPatternResult (url_host url) "/_404", notFound)])%list
      as [|m ms] eqn:Happ.
    - destruct (scanRoutes url (r0 :: routes')); discriminate.
    - rewrite <- Happ.
      destruct (negb (String.eqb (input (upr_pathname (fst m))) "/_app")).
      + destruct (findByPatternPathname "/_app" (r0 :: routes')) as [layout|].
        * exists ((createStaticURLPatternResult (url_host url) "/_app", layout)
                  :: scanRoutes url (r0 :: routes')). reflexivity.
        * exists (scanRoutes url (r0 :: routes')). reflexivity.
      + exists (scanRoutes url (r0 :: routes')). reflexivity. }
  destruct Hfront as [front Hfront]. exists front.
  repeat split; trivial. now apply Hwith.
Qed.

End MatchingFacts.

(** On a request for a page of the demo site the root layout comes first. *)
Lemma root_layout_prepended_on_page :
  exists layout,
    findByPatternPathname "/_app" Demo.site = Some layout
    /\ meta_pattern_pathname (meta layout) = "/_app"
    /\ matchRoutes (P := Demo.platform) (req_url (Demo.request "/hello")) Demo.site
       = (Demo.staticResult "localhost" "/_app", layout)
         :: Demo.slugMatch "/hello" :: [].
Proof.
  apply (root_layout_prepended (P := Demo.platform) (req_url (Demo.request "/hello"))
           Demo.site (Demo.slugMatch "/hello") []).
  - reflexivity.
  - exists Demo.appRoute. split; [right; left; reflexivity | reflexivity].
  - discriminate.
Defined.

(** C1, at an input where the code departs from it: the route table is the
    dynamic route [/:slug] followed by the root layout [/_app], and the
    request is for [/_app].  The dynamic route comes first in the table and
    records the first match, made on the pathname [/_app]; l.268 compares
    that pathname, not the route of the match, with [/_app], so no root
    layout match is put in front: the match list starts with the match of
    the dynamic route, and the root layout comes second. *)
Theorem root_layout_not_first :
  (exists r, In r [Demo.slugRoute; Demo.appRoute]
             /\ meta_pattern_pathname (meta r) = "/_app")
  /\ matchRoutes (P := Demo.platform) (req_url (Demo.request "/_app"))
       [Demo.slugRoute; Demo.appRoute]
     = [Demo.slugMatch "/_app"; Demo.appMatch]
  /\ meta_pattern_pathname (meta (snd (Demo.slugMatch "/_app"))) <> "/_app".
Proof.
  split; [|split].
  - exists Demo.appRoute. split; [right; left; reflexivity | reflexivity].
  - reflexivity.
  - discriminate.
Qed.

(** C7, on a request no route of the demo site matches. *)
Lemma not_found_appended_witness :
  exists notFound front,
    findByPatternPathname "/_404" Demo.site = Some notFound
    /\ meta_pattern_pathname (meta notFound) = "/_404"
    /\ withNotFound (P := Demo.platform) (req_url (Demo.request "/a/b")) Demo.site
         (scanRoutes (P := Demo.platform) (req_url (Demo.request "/a/b")) Demo.site)
       = (scanRoutes (P := Demo.platform) (req_url (Demo.request "/a/b")) Demo.site
          ++ [(Demo.staticResult "localhost" "/_404", notFound)])%list
    /\ matchRoutes (P := Demo.platform) (req_url (Demo.request "/a/b")) Demo.site
       = (front ++ [(Demo.staticResult "localhost" "/_404", notFound)])%list
    /\ (forall url',
          url_host url' = "localhost" ->
          length (filter isLeaf (scanRoutes (P := Demo.platform) url' Demo.site)) = 0%nat ->
          withNotFound (P := Demo.platform) url' Demo.site
            (scanRoutes (P := Demo.platform) url' Demo.site)
          = (scanRoutes (P := Demo.platform) url' Demo.site
             ++ [(Demo.staticResult "localhost" "/_404", notFound)])%list).
Proof.
  apply (not_found_appended (P := Demo.platform) (req_url (Demo.request "/a/b")) Demo.site).
  - reflexivity.
  - exists Demo.notFoundRoute. split; [right; right; left; reflexivity | reflexivity].
Defined.

(** C7 as stated fails: the synthetic not-found match of a request for
    [/a/b] is made on [/_404], not on the request path; a request for
    [/x/y] gets the same match list. *)
Lemma not_found_not_at_request_path :
  length (filter isLeaf
            (scanRoutes (P := Demo.platform) (req_url (Demo.request "/a/b")) Demo.site))
  = 0%nat
  /\ matchRoutes (P := Demo.platform) (req_url (Demo.request "/a/b")) Demo.site
     = [(Demo.staticResult "localhost" "/_app", Demo.appRoute);
        (Demo.staticResult "localhost" "/_404", Demo.notFoundRoute)]
  /\ input (upr_pathname (Demo.staticResult "localhost" "/_404"))
     <> url_pathname (req_url (Demo.request "/a/b"))
  /\ matchRoutes (P := Demo.platform) (req_url (Demo.request "/x/y")) Demo.site
     = matchRoutes (P := Demo.platform) (req_url (Demo.request "/a/b")) Demo.site.
Proof.
  repeat split; try reflexivity. discriminate.
Qed.

(* ------------------------------------------------------------------ *)
(** ** Data loading *)

Section LoadingFacts.
Context {P : Platform}.

(** What [applyResponse] leaves in a module whose outcome fields were unset. *)
Lemma applyResponse_fresh (base : SSRModule) (res : Response) :
  data base = None -> error base = None -> redirect base = None ->
  let m := applyResponse base res in
  (forall r, redirect m = Some r ->
     error m = None /\ data m = None
     /\ r = {| redirect_headers := res_headers res; redirect_status := res_status res |}
     /\ Headers_has (res_headers res) "Location" = true
     /\ 300 <= res_status res < 400)
  /\ (forall e, error m = Some e -> redirect m = None /\ data m = None).
Proof.
  intros Hd He Hr. unfold applyResponse.
  destruct (res_status res >=? 400) eqn:H400.
  - simpl. rewrite Hr, Hd. split; [discriminate | auto].
  - destruct (res_status res >=? 300) eqn:H300.
    + destruct (Headers_has (res_headers res) "Location") eqn:Hloc; simpl.
      * rewrite He, Hd. split; [|discriminate].
        intros r Heq. inversion Heq; subst. repeat split; trivial; lia.
      * rewrite Hr, Hd. split; [discriminate | auto].
    + destruct (JSON_parse (Response_text res)); simpl.
      * rewrite He, Hr. split; discriminate.
      * rewrite Hr, Hd. split; [discriminate | auto].
Qed.

(** A module as [loadModule] returns it is either as created, or as
    [applyResponse] left it. *)
Lemma loadModule_cases (req : Request) (ctx : FetchContext) (url : URL)
    (m : RouteMatch) (ssrModule : SSRModule) :
  loadModule req ctx url m = Ok ssrModule ->
  exists base,
    data base = None /\ error base = None /\ redirect base = None
    /\ (ssrModule = base \/ exists res, ssrModule = applyResponse base res).
Proof.
  unfold loadModule. destruct (imp (snd m)) as [imported|e]; simpl; [|discriminate].
  set (base := {| ssr_url := moduleUrl url (fst m);
                  filename := meta_filename (meta (snd m));
                  defaultExport := mod_default imported;
                  dataCacheTtl := cacheTtl (dataConfigOf imported);
                  data := None; error := None; redirect := None |}).
  intros H. exists base. repeat split.
  destruct (get (dataConfigOf imported)) as [fetcher|].
  - destruct (fetcher _ ctx) as [[res|]|e]; simpl in H; inversion H; subst.
    + right. exists res. reflexivity.
    + left. reflexivity.
  - inversion H. left. reflexivity.
Qed.

(** C4 (as amended).  When the data fetcher of a matched route returns a
    [Response]: a status of 400 or more sets [error] to the body text and
    the status; a status from 300 to 399 sets [redirect] to the headers and
    the status when there is a [Location] header, and otherwise [error] to
    "Missing the `Location` header" (with the backticks) and 400; any other
    status sets [data] to the parsed body, or [error] to "Data must be
    valid JSON" and 400 when the body does not parse. *)
Theorem response_outcomes (req : Request) (ctx : FetchContext) (url : URL)
    (m : RouteMatch) (imported : ModuleExports)
    (fetcher : Request -> FetchContext -> result FetcherReturn) (res : Response) :
  imp (snd m) = Ok imported ->
  get (dataConfigOf imported) = Some fetcher ->
  fetcher (Request_derive (moduleUrl url (fst m)) req) ctx = Ok (ReturnsResponse res) ->
  exists ssrModule,
    loadModule req ctx url m = Ok ssrModule
    /\ (400 <= res_status res ->
        error ssrModule
        = Some {| err_message := Response_text res; err_status := res_status res |})
    /\ (300 <= res_status res < 400 ->
        Headers_has (res_headers res) "Location" = true ->
        redirect ssrModule
        = Some {| redirect_headers := res_headers res;
                  redirect_status := res_status res |})
    /\ (300 <= res_status res < 400 ->
        Headers_has (res_headers res) "Location" = false ->
        error ssrModule
        = Some {| err_message :=
                    "Missing the " +:+ backtick +:+ "Location" +:+ backtick +:+ " header";
                  err_status := 400 |})
    /\ (res_status res < 300 ->
        forall d, JSON_parse (Response_text res) = Some d -> data ssrModule = Some d)
    /\ (res_status res < 300 ->
        JSON_parse (Response_text res) = None ->
        error ssrModule
        = Some {| err_message := "Data must be valid JSON"; err_status := 400 |}).
Proof.
  intros Himp Hget Hfetch. unfold loadModule. rewrite Himp. simpl.
  rewrite Hget. simpl. rewrite Hfetch. simpl.
  eexists. split; [reflexivity|]. unfold applyResponse.
  destruct (Z.geb_spec (res_status res) 400) as [H400|H400];
    [|destruct (Z.geb_spec (res_status res) 300) as [H300|H300]];
    repeat match goal with |- _ /\ _ => split end; intros; try lia;
    repeat match goal with
           | H : Headers_has _ _ = _ |- _ => rewrite H; clear H
           | H : JSON_parse _ = _ |- _ => rewrite H; clear H
           end;
    reflexivity.
Qed.

(** C6.  In every module [initSSR] returns, [redirect] and [error] are not
    both set.  A module with a redirect has no error and no data, and its
    redirect comes from a 3xx response with a [Location] header; a module
    with an error (a status of 400 or more, a 3xx without [Location], a
    body that does not parse) has no redirect and no data. *)
Theorem redirect_error_exclusive (req : Request) (ctx : FetchContext)
    (routes : list Route) (url : URL) (modules : list SSRModule) (ssrModule : SSRModule) :
  initSSR req ctx routes = Ok (url, modules) ->
  In ssrModule modules ->
  (redirect ssrModule = None \/ error ssrModule = None)
  /\ (forall r, redirect ssrModule = Some r ->
        error ssrModule = None /\ data ssrModule = None
        /\ Headers_has (redirect_headers r) "Location" = true
        /\ 300 <= redirect_status r < 400)
  /\ (forall e, error ssrModule = Some e ->
        redirect ssrModule = None /\ data ssrModule = None).
Proof.
  intros Hinit Hin.
  assert (Hload : exists m, loadModule req ctx (req_url req) m = Ok ssrModule).
  { unfold initSSR in Hinit.
    destruct (matchRoutes (req_url req) routes) eqn:Hmatch.
    - inversion Hinit; subst. contradiction.
    - unfold loadModules in Hinit. rewrite Hmatch in Hinit.
      destruct (Promise_all _ (r :: l)) as [loaded|e] eqn:Hall; simpl in Hinit;
        [|discriminate].
      inversion Hinit; subst. apply filter_In in Hin. destruct Hin as [Hin _].
      destruct (Promise_all_In _ _ _ Hall _ Hin) as [m [_ Hm]]. exists m. exact Hm. }
  destruct Hload as [m Hm].
  destruct (loadModule_cases _ _ _ _ _ Hm) as [base [Hd [He [Hr [Heq | [res Heq]]]]]];
    subst ssrModule.
  - rewrite Hr, He, Hd. repeat split; auto; discriminate.
  - destruct (applyResponse_fresh base res Hd He Hr) as [Hred Herr].
    split; [|split].
    + destruct (redirect (applyResponse base res)) as [r|] eqn:Hredir; [|auto].
      right. apply (Hred r eq_refl).
    + intros r Hredir. destruct (Hred r Hredir) as [H1 [H2 [H3 [H4 H5]]]].
      subst r. simpl. auto.
    + exact Herr.
Qed.

End LoadingFacts.

(** C4, on the demo route whose fetcher answers 302 without [Location]. *)
Lemma response_outcomes_witness :
  exists ssrModule,
    loadModule (P := Demo.platform) (Demo.request "/login") []
      (req_url (Demo.request "/login")) Demo.loginMatch = Ok ssrModule
    /\ (400 <= res_status Demo.found ->
        error ssrModule
        = Some {| err_message := Response_text Demo.found;
                  err_status := res_status Demo.found |})
    /\ (300 <= res_status Demo.found < 400 ->
        Headers_has (res_headers Demo.found) "Location" = true ->
        redirect ssrModule
        = Some {| redirect_headers := res_headers Demo.found;
                  redirect_status := res_status Demo.found |})
    /\ (300 <= res_status Demo.found < 400 ->
        Headers_has (res_headers Demo.found) "Location" = false ->
        error ssrModule
        = Some {| err_message :=
                    "Missing the " +:+ backtick +:+ "Location" +:+ backtick +:+ " header";
                  err_status := 400 |})
    /\ (res_status Demo.found < 300 ->
        forall d, JSON_parse (Platform := Demo.platform) (Response_text Demo.found) = Some d ->
                  data ssrModule = Some d)
    /\ (res_status Demo.found < 300 ->
        JSON_parse (Platform := Demo.platform) (Response_text Demo.found) = None ->
        error ssrModule
        = Some {| err_message := "Data must be valid JSON"; err_status := 400 |}).
Proof.
  apply (response_outcomes (P := Demo.platform) (Demo.request "/login") []
           (req_url (Demo.request "/login")) Demo.loginMatch
           {| mod_default := Some (opaque "/login");
              mod_data := Some {| cacheTtl := None;
                                  get := Some (fun _ _ => Ok (ReturnsResponse Demo.found)) |} |}
           (fun _ _ => Ok (ReturnsResponse Demo.found)) Demo.found);
    reflexivity.
Defined.

(** C4 as stated fails on the message of a redirect without [Location]:
    the code's message has backticks around [Location]. *)
Lemma missing_location_message :
  loadModule (P := Demo.platform) (Demo.request "/login") []
    (req_url (Demo.request "/login")) Demo.loginMatch = Ok Demo.loginModule
  /\ error Demo.loginModule
     <> Some {| err_message := "Missing the Location header"; err_status := 400 |}.
Proof.
  split; [reflexivity | discriminate].
Qed.

(** C6, on the module of the demo route above. *)
Lemma redirect_error_exclusive_witness :
  (redirect Demo.loginModule = None \/ error Demo.loginModule = None)
  /\ (forall r, redirect Demo.loginModule = Some r ->
        error Demo.loginModule = None /\ data Demo.loginModule = None
        /\ Headers_has (redirect_headers r) "Location" = true
        /\ 300 <= redirect_status r < 400)
  /\ (forall e, error Demo.loginModule = Some e ->
        redirect Demo.loginModule = None /\ data Demo.loginModule = None).
Proof.
  apply (redirect_error_exclusive (P := Demo.platform) (Demo.request "/login") []
           [Demo.loginRoute] (req_url (Demo.request "/login"))
           [Demo.loginModule] Demo.loginModule).
  - reflexivity.
  - left. reflexivity.
Defined.

(* ------------------------------------------------------------------ *)
(** ** fetch: how a call unfolds *)

Section FetchFacts.
Context {P : Platform}.

Lemma ensureLolHtml_ready (w : World) : ensureLolHtml w = (Ok tt, ready w).
Proof. unfold ready, ensureLolHtml. now destruct (lolHtmlReady w). Qed.

Lemma calls_ready (w : World) :
  calls (ready w) = (calls w ++ (if lolHtmlReady w then [] else [CallInitWasm]))%list.
Proof.
  unfold ready, ensureLolHtml. destruct (lolHtmlReady w); simpl; [|reflexivity].
  now rewrite app_nil_r.
Qed.

Lemma logged_logged (w : World) (a b : list Call) :
  logged (logged w a) b = logged w (a ++ b)%list.
Proof. unfold logged. simpl. now rewrite app_assoc. Qed.

Lemma firstRedirect_found (modules : list SSRModule) (m : SSRModule) :
  In m modules -> redirect m <> None ->
  exists r m', firstRedirect modules = Some r /\ In m' modules /\ redirect m' = Some r.
Proof.
  intros Hin Hred. unfold firstRedirect.
  destruct (find _ modules) as [m'|] eqn:Hfind.
  - apply find_some in Hfind. destruct Hfind as [Hin' Hsome].
    destruct (redirect m') as [r|] eqn:Hr; [|discriminate].
    exists r, m'. auto.
  - apply (find_none _ _ Hfind) in Hin. simpl in Hin.
    destruct (redirect m); [discriminate | congruence].
Qed.

Lemma firstRedirect_none (modules : list SSRModule) :
  (forall m, In m modules -> redirect m = None) -> firstRedirect modules = None.
Proof.
  intros H. unfold firstRedirect.
  destruct (find _ modules) as [m|] eqn:Hfind; [|reflexivity].
  apply find_some in Hfind. destruct Hfind as [Hin Hsome].
  now rewrite (H m Hin) in Hsome.
Qed.

Lemma render_returns (options : RenderOptions) (h : SSRContext -> RenderOutcome)
    (url : URL) (modules : list SSRModule) (headers : Headers) (w : World) :
  render options h url modules headers w
  = (Ok (localsAfter options h url modules headers),
     logged w [CallSsrHandler {| ctx_url := url; ctx_modules := modules;
                                 headCollection := [] |}]).
Proof.
  unfold render, localsAfter, tryCatch, bind, call, lift, ret, logged. simpl.
  destruct (completion (h _)) as [[out|]|e]; simpl; try reflexivity.
  destruct (collectStyles (isDev options) modules); reflexivity.
Qed.

Lemma fetch_redirected (req : Request) (ctx : FetchContext) (options : RenderOptions)
    (h : SSRContext -> RenderOutcome) (url : URL) (modules : list SSRModule)
    (r : Redirect) (w : World) :
  ssrHandler options = Some h ->
  initSSR req ctx (routes options) = Ok (url, modules) ->
  firstRedirect modules = Some r ->
  fetch req ctx options w
  = (Ok {| res_body := None; res_status := redirect_status r;
           res_headers := redirect_headers r |}, ready w).
Proof.
  intros Hh Hinit Hred. unfold fetch, bind. rewrite ensureLolHtml_ready.
  unfold ssrPhase. rewrite Hh. unfold bind, lift. rewrite Hinit. simpl.
  rewrite Hred. reflexivity.
Qed.

Lemma fetch_rendered (req : Request) (ctx : FetchContext) (options : RenderOptions)
    (h : SSRContext -> RenderOutcome) (url : URL) (modules : list SSRModule) (w : World) :
  ssrHandler options = Some h ->
  initSSR req ctx (routes options) = Ok (url, modules) ->
  firstRedirect modules = None ->
  fetch req ctx options w
  = respond req options (localsAfter options h url modules initialHeaders)
      (logged (ready w) [CallSsrHandler {| ctx_url := url; ctx_modules := modules;
                                           headCollection := [] |}]).
Proof.
  intros Hh Hinit Hred. unfold fetch, bind. rewrite ensureLolHtml_ready.
  unfold ssrPhase. rewrite Hh. unfold bind, lift. rewrite Hinit. simpl.
  rewrite Hred. rewrite render_returns. reflexivity.
Qed.

Lemma fetch_without_handler (req : Request) (ctx : FetchContext)
    (options : RenderOptions) (w : World) :
  ssrHandler options = None ->
  fetch req ctx options w = respond req options (false, initialHeaders, []) (ready w).
Proof.
  intros Hh. unfold fetch, bind. rewrite ensureLolHtml_ready.
  unfold ssrPhase. rewrite Hh. reflexivity.
Qed.

Lemma respond_after_render (req : Request) (options : RenderOptions)
    (headers : Headers) (regs : Registrations) (w : World) :
  respond req options (true, headers, regs) w
  = (Ok {| res_body :=
             Some (concat (HTMLRewriter_run (regs ++ commonRegistrations options)%list
                             (indexHtml options)));
           res_status := 200;
           res_headers := headers |},
     logged w [CallRewriterWrite (map fst (regs ++ commonRegistrations options)%list)]).
Proof. reflexivity. Qed.

Lemma respond_static (req : Request) (options : RenderOptions)
    (mtime : option string) (w : World) :
  lstat_mtimeUTC = Ok mtime ->
  respond req options (false, initialHeaders, []) w
  = (Ok (staticResponse req options mtime), logged w (staticCalls req options mtime)).
Proof.
  intros Hstat. unfold respond, staticPhase, bind, call, lift. simpl.
  rewrite Hstat. unfold staticResponse, staticCalls, logged. simpl.
  destruct mtime as [t|]; simpl.
  - destruct (sameHeader _ t); simpl; [reflexivity|].
    rewrite <- app_assoc. reflexivity.
  - rewrite <- app_assoc. reflexivity.
Qed.










End FetchFacts.

(* ------------------------------------------------------------------ *)
(** ** fetch: redirects, render failures, the static template *)

Section ResponseFacts.
Context {P : Platform}.

(** C3.  When a module returned by [initSSR] carries a redirect, [fetch]
    returns at once a response with a null body and the status and headers
    of the first such redirect; the render callback is not called, the
    rewriter is not run, no header is computed: the only call [fetch] may
    have made is the one-time initialisation of the rewriter. *)
Theorem redirect_short_circuit (req : Request) (ctx : FetchContext)
    (options : RenderOptions) (h : SSRContext -> RenderOutcome) (url : URL)
    (modules : list SSRModule) (m : SSRModule) (w : World) :
  ssrHandler options = Some h ->
  initSSR req ctx (routes options) = Ok (url, modules) ->
  In m modules ->
  redirect m <> None ->
  exists r m',
    In m' modules
    /\ redirect m' = Some r
    /\ fetch req ctx options w
       = (Ok {| res_body := None; res_status := redirect_status r;
                res_headers := redirect_headers r |}, ready w)
    /\ calls (ready w)
       = (calls w ++ (if lolHtmlReady w then [] else [CallInitWasm]))%list.
Proof.
  intros Hh Hinit Hin Hred.
  destruct (firstRedirect_found modules m Hin Hred) as [r [m' [Hfirst [Hin' Hr]]]].
  exists r, m'. repeat split; trivial.
  - now apply (fetch_redirected req ctx options h url modules r w).
  - apply calls_ready.
Qed.



End ResponseFacts.

(** C3, on a request for the demo route that answers 302 to [/login]. *)
Lemma redirect_short_circuit_witness :
  exists r m',
    In m' [Demo.movedModule]
    /\ redirect m' = Some r
    /\ fetch (P := Demo.platform) (Demo.request "/old") []
         (Demo.options [Demo.movedRoute] false (Some (Demo.renders "<p>old</p>")))
         Demo.world
       = (Ok {| res_body := None; res_status := redirect_status r;
                res_headers := redirect_headers r |}, ready Demo.world)
    /\ calls (ready Demo.world)
       = (calls Demo.world
          ++ (if lolHtmlReady Demo.world then [] else [CallInitWasm]))%list.
Proof.
  apply (redirect_short_circuit (P := Demo.platform) (Demo.request "/old") []
           (Demo.options [Demo.movedRoute] false (Some (Demo.renders "<p>old</p>")))
           (Demo.renders "<p>old</p>") (req_url (Demo.request "/old"))
           [Demo.movedModule] Demo.movedModule Demo.world).
  - reflexivity.
  - reflexivity.
  - left. reflexivity.
  - discriminate.
Defined.





(** A handler bound to a selector that is not an element name runs where
    the selector semantics of the platform say so: where [*] selects every
    element, it runs on the markers too. *)
Lemma wildcard_handler_runs_on_markers :
  selects (P := Demo.platform) "*" Demo.template [0; 1; 0]%nat "ssr-body" = true
  /\ fire (P := Demo.platform)
       (commonRegistrations (P := Demo.platform) (Demo.marked Demo.site false None))
       Demo.template [0; 1; 0]%nat
       {| nomoduleInserted := false; handled := false |} (newElement "ssr-body" [])
     = ({| nomoduleInserted := false; handled := false |},
        setAttribute (newElement "ssr-body" []) "data-seen" "1").
Proof. split; reflexivity. Qed.

(* ------------------------------------------------------------------ *)
(** ** The cache policy *)

Ltac number_cases :=
  unfold min2, number_ltb in *;
  repeat match goal with
         | |- context [Z.ltb ?p ?q] => destruct (Z.ltb_spec p q)
         | H : context [Z.ltb ?p ?q] |- _ => destruct (Z.ltb_spec p q)
         end;
  try reflexivity; try discriminate; try congruence; try (f_equal; lia); try lia.

Lemma min2_swap (a x y : number) : min2 (min2 a x) y = min2 (min2 a y) x.
Proof. destruct a, x, y; number_cases. Qed.

Lemma min2_not_NaN (a b : number) : a <> NaN -> b <> NaN -> min2 a b <> NaN.
Proof. destruct a, b; number_cases. Qed.

Lemma min2_choice (a b : number) :
  a <> NaN -> b <> NaN -> min2 a b = a \/ min2 a b = b.
Proof.
  destruct a, b; unfold min2; try congruence; destruct (number_ltb _ _); auto.
Qed.

Lemma min2_lower (a b : number) :
  a <> NaN -> b <> NaN ->
  number_ltb a (min2 a b) = false /\ number_ltb b (min2 a b) = false.
Proof. destruct a, b; intros; split; number_cases. Qed.

(** [number_ltb b a = false] reads [a <= b] away from [NaN]. *)
Lemma not_below_trans (a b c : number) :
  b <> NaN -> number_ltb b a = false -> number_ltb c b = false ->
  number_ltb c a = false.
Proof. destruct a, b, c; intros; number_cases. Qed.

Lemma below_Infinity (a : number) :
  a <> NaN -> number_ltb a Infinity = false -> a = Infinity.
Proof. destruct a; intros; number_cases. Qed.

Lemma fold_min2_permutation (xs ys : list number) :
  Permutation xs ys -> forall acc, fold_left min2 xs acc = fold_left min2 ys acc.
Proof.
  induction 1 as [|x xs ys _ IH|x y xs|xs ys zs _ IH1 _ IH2]; intros acc; simpl.
  - reflexivity.
  - apply IH.
  - now rewrite min2_swap.
  - now rewrite IH1.
Qed.

Lemma fold_min2_spec (xs : list number) :
  Forall (fun x => x <> NaN) xs ->
  forall acc, acc <> NaN ->
  fold_left min2 xs acc <> NaN
  /\ (fold_left min2 xs acc = acc \/ In (fold_left min2 xs acc) xs)
  /\ number_ltb acc (fold_left min2 xs acc) = false
  /\ (forall x, In x xs -> number_ltb x (fold_left min2 xs acc) = false).
Proof.
  induction 1 as [|x xs Hx Hxs IH]; intros acc Hacc; simpl.
  - repeat split; auto.
    + destruct acc; number_cases.
    + contradiction.
  - destruct (IH (min2 acc x) (min2_not_NaN acc x Hacc Hx)) as [Hn [Hmem [Hle Hall]]].
    destruct (min2_lower acc x Hacc Hx) as [Hla Hlx].
    pose proof (min2_not_NaN acc x Hacc Hx) as Hm.
    repeat split.
    + exact Hn.
    + destruct Hmem as [Heq|Hin]; [|auto].
      rewrite Heq. destruct (min2_choice acc x Hacc Hx) as [H1|H1]; rewrite H1; auto.
    + apply (not_below_trans _ (min2 acc x) _ Hm Hle Hla).
    + intros y [Hy|Hy].
      * subst y. apply (not_below_trans _ (min2 acc x) _ Hm Hle Hlx).
      * now apply Hall.
Qed.

(** [Math.min] of numbers none of which is [NaN]: one of them, and none is
    below it. *)
Lemma Math_min_least (xs : list number) :
  Forall (fun x => x <> NaN) xs -> xs <> [] ->
  In (Math_min xs) xs /\ forall x, In x xs -> number_ltb x (Math_min xs) = false.
Proof.
  intros Hxs Hne. unfold Math_min.
  destruct (fold_min2_spec xs Hxs Infinity) as [Hn [Hmem [_ Hall]]]; [discriminate|].
  split; [|exact Hall].
  destruct Hmem as [Heq|Hin]; [|exact Hin].
  destruct xs as [|x rest]; [congruence|].
  assert (Hx : x = Infinity).
  { apply below_Infinity.
    - now inversion Hxs.
    - rewrite <- Heq. apply Hall. now left. }
  rewrite Heq, <- Hx. now left.
Qed.

Lemma filter_permutation {A} (f : A -> bool) (xs ys : list A) :
  Permutation xs ys -> Permutation (filter f xs) (filter f ys).
Proof.
  induction 1 as [|x xs ys _ IH|x y xs|xs ys zs _ IH1 _ IH2]; simpl.
  - constructor.
  - destruct (f x); [now constructor | exact IH].
  - destruct (f x), (f y); try reflexivity. constructor.
  - now transitivity (filter f ys).
Qed.

Lemma ttlsOf_spec (modules : list SSRModule) (t : number) :
  In t (ttlsOf modules)
  <-> exists m, In m modules /\ dataCacheTtl m = Some t
                /\ t <> NaN /\ number_gtb t (Fin 0) = true.
Proof.
  unfold ttlsOf. rewrite in_map_iff. split.
  - intros [m [Ht Hin]]. apply filter_In in Hin. destruct Hin as [Hin Httl].
    unfold hasTtl in Httl. destruct (dataCacheTtl m) as [n|] eqn:Hn; [|discriminate].
    simpl in Ht. subst n. apply andb_prop in Httl. destruct Httl as [Hnan Hpos].
    exists m. repeat split; trivial. intros ->. discriminate.
  - intros [m [Hin [Hn [Hnan Hpos]]]]. exists m. split.
    + now rewrite Hn.
    + apply filter_In. split; [exact Hin|]. unfold hasTtl. rewrite Hn, Hpos.
      destruct t; [congruence | reflexivity ..].
Qed.

Lemma ttlsOf_not_NaN (modules : list SSRModule) :
  Forall (fun x => x <> NaN) (ttlsOf modules).
Proof.
  apply Forall_forall. intros t Ht. apply ttlsOf_spec in Ht.
  now destruct Ht as [m [_ [_ [Hnan _]]]].
Qed.

Lemma cacheControl_permutation (modules modules' : list SSRModule) :
  Permutation modules modules' -> cacheControl modules' = cacheControl modules.
Proof.
  intros Hperm.
  assert (Httl : Permutation (ttlsOf modules) (ttlsOf modules')).
  { unfold ttlsOf. apply Permutation_map. now apply filter_permutation. }
  unfold cacheControl. rewrite <- (Permutation_length Httl).
  destruct (Nat.ltb 1 (length (ttlsOf modules))).
  - unfold Math_min. now rewrite (fold_min2_permutation _ _ Httl).
  - destruct (Nat.eqb_spec (length (ttlsOf modules)) 1) as [Hone|]; [|reflexivity].
    destruct (ttlsOf modules) as [|t [|]]; try discriminate.
    now rewrite (Permutation_length_1_inv Httl).
Qed.

Section CacheFacts.
Context {P : Platform}.

(** C2.  When the render callback returns a string (and the styles are
    collected), the response carries one [Cache-Control] header, computed
    from the TTLs: the [dataCacheTtl] of the modules that are numbers, not
    [NaN] and above 0.  With no TTL the header is the non-cacheable one;
    with one TTL it is [max-age] of it; with more it is [max-age] of their
    minimum.  The header does not depend on the order of the modules. *)
Theorem cache_policy (req : Request) (ctx : FetchContext) (options : RenderOptions)
    (h : SSRContext -> RenderOutcome) (url : URL) (modules : list SSRModule)
    (ssrOutput : string) (styles : list string) (w : World) :
  ssrHandler options = Some h ->
  initSSR req ctx (routes options) = Ok (url, modules) ->
  firstRedirect modules = None ->
  completion (h {| ctx_url := url; ctx_modules := modules; headCollection := [] |})
  = Ok (Some ssrOutput) ->
  collectStyles (isDev options) modules = Ok styles ->
  (exists body,
     fst (fetch req ctx options w)
     = Ok {| res_body := Some body; res_status := 200;
             res_headers :=
               Headers_append initialHeaders "Cache-Control" (cacheControl modules) |})
  /\ (forall t, In t (ttlsOf modules)
                <-> exists m, In m modules /\ dataCacheTtl m = Some t
                              /\ t <> NaN /\ number_gtb t (Fin 0) = true)
  /\ (ttlsOf modules = [] -> cacheControl modules = nonCacheable)
  /\ (forall t, ttlsOf modules = [t] ->
                cacheControl modules = "public, max-age=" +:+ number_toString t)
  /\ ((1 < length (ttlsOf modules))%nat ->
      exists t, In t (ttlsOf modules)
                /\ (forall t', In t' (ttlsOf modules) -> number_ltb t' t = false)
                /\ cacheControl modules = "public, max-age=" +:+ number_toString t)
  /\ (forall modules', Permutation modules modules' ->
                       cacheControl modules' = cacheControl modules).
Proof.
  intros Hh Hinit Hred Hout Hstyles. repeat match goal with |- _ /\ _ => split end.
  - rewrite (fetch_rendered req ctx options h url modules w Hh Hinit Hred).
    unfold localsAfter. rewrite Hout, Hstyles. rewrite respond_after_render.
    eexists. reflexivity.
  - apply ttlsOf_spec.
  - intros Hnil. unfold cacheControl. now rewrite Hnil.
  - intros t Ht. unfold cacheControl. now rewrite Ht.
  - intros Hlen. exists (Math_min (ttlsOf modules)).
    destruct (Math_min_least (ttlsOf modules) (ttlsOf_not_NaN modules)) as [Hin Hleast].
    { intros Hnil. rewrite Hnil in Hlen. simpl in Hlen. lia. }
    repeat split; trivial.
    unfold cacheControl. apply Nat.ltb_lt in Hlen. now rewrite Hlen.
  - apply cacheControl_permutation.
Qed.

End CacheFacts.

(** C2, on the blog of the demo: TTLs 30, 10 and 20 give [max-age=10]. *)
Lemma cache_policy_witness :
  cacheControl Demo.blogModules = "public, max-age=10"
  /\ exists body,
       fst (fetch (P := Demo.platform) (Demo.request "/blog") []
              (Demo.options Demo.blog false (Some (Demo.renders "<p>blog</p>")))
              Demo.world)
       = Ok {| res_body := Some body; res_status := 200;
               res_headers :=
                 Headers_append initialHeaders "Cache-Control"
                   (cacheControl Demo.blogModules) |}.
Proof.
  split; [reflexivity|].
  apply (cache_policy (P := Demo.platform) (Demo.request "/blog") []
           (Demo.options Demo.blog false (Some (Demo.renders "<p>blog</p>")))
           (Demo.renders "<p>blog</p>") (req_url (Demo.request "/blog"))
           Demo.blogModules "<p>blog</p>" [] Demo.world); reflexivity.
Defined.

(* ------------------------------------------------------------------ *)
(** ** Modules without a default export *)

Section FilterFacts.
Context {P : Platform}.

(** [respond] answers 200 or 304 when it answers, and only adds calls. *)
Lemma respond_outcome (req : Request) (options : RenderOptions) (locals : Locals)
    (w : World) :
  (exists cs, snd (respond req options locals w) = logged w cs)
  /\ (forall response, fst (respond req options locals w) = Ok response ->
        res_status response = 200 \/ res_status response = 304).
Proof.
  destruct locals as [[ssr headers] regs].
  unfold respond, staticPhase, bind, call, lift, ret, logged.
  destruct ssr; simpl.
  - split.
    + eexists. reflexivity.
    + intros response H. inversion H. now left.
  - destruct lstat_mtimeUTC as [[t|]|e]; simpl.
    + destruct (sameHeader _ t); simpl; split;
        try (eexists; try rewrite <- app_assoc; reflexivity);
        intros response H; inversion H; auto.
    + split; [eexists; rewrite <- app_assoc; reflexivity|].
      intros response H. inversion H. now left.
    + split; [eexists; reflexivity | discriminate].
Qed.

(** When every module with a redirect lacks a default export, none of the
    surviving modules has a redirect. *)
Lemma survivors_without_redirect (loaded : list SSRModule) :
  (forall m', In m' loaded -> redirect m' <> None -> defaultExport m' = None) ->
  firstRedirect (filter hasDefaultExport loaded) = None.
Proof.
  intros Hall. apply firstRedirect_none. intros m' Hm'. apply filter_In in Hm'.
  destruct Hm' as [Hm' Hexp]. destruct (redirect m') as [r|] eqn:Hr; [|reflexivity].
  unfold hasDefaultExport in Hexp. rewrite (Hall m' Hm') in Hexp; [discriminate|].
  rewrite Hr. discriminate.
Qed.

(** C9.  A module whose data fetch produced a redirect but whose default
    export is undefined is not among the modules [initSSR] returns, so a
    redirect response of [fetch] never comes from it: it comes from a
    module that has a default export.  When no such module redirects,
    [fetch] calls the render callback with the surviving modules and goes
    on to the response, whose status, if any, is 200 or 304. *)
Theorem redirect_dropped_with_module (req : Request) (ctx : FetchContext)
    (options : RenderOptions) (h : SSRContext -> RenderOutcome)
    (loaded : list SSRModule) (m : SSRModule) (w : World) :
  ssrHandler options = Some h ->
  loadModules req ctx (routes options) = Ok loaded ->
  In m loaded ->
  redirect m <> None ->
  defaultExport m = None ->
  initSSR req ctx (routes options) = Ok (req_url req, filter hasDefaultExport loaded)
  /\ ~ In m (filter hasDefaultExport loaded)
  /\ (forall r, firstRedirect (filter hasDefaultExport loaded) = Some r ->
        (exists m', In m' loaded /\ defaultExport m' <> None /\ redirect m' = Some r)
        /\ fetch req ctx options w
           = (Ok {| res_body := None; res_status := redirect_status r;
                    res_headers := redirect_headers r |}, ready w))
  /\ ((forall m', In m' loaded -> redirect m' <> None -> defaultExport m' = None) ->
      firstRedirect (filter hasDefaultExport loaded) = None
      /\ fetch req ctx options w
         = respond req options
             (localsAfter options h (req_url req) (filter hasDefaultExport loaded)
                initialHeaders)
             (logged (ready w)
                [CallSsrHandler {| ctx_url := req_url req;
                                   ctx_modules := filter hasDefaultExport loaded;
                                   headCollection := [] |}])
      /\ In (CallSsrHandler {| ctx_url := req_url req;
                               ctx_modules := filter hasDefaultExport loaded;
                               headCollection := [] |})
           (calls (snd (fetch req ctx options w)))
      /\ (forall response, fst (fetch req ctx options w) = Ok response ->
            res_status response = 200 \/ res_status response = 304)).
Proof.
  intros Hh Hload Hin Hred Hdef.
  assert (Hinit : initSSR req ctx (routes options)
                  = Ok (req_url req, filter hasDefaultExport loaded)).
  { unfold initSSR. unfold loadModules in *.
    destruct (matchRoutes (req_url req) (routes options)) as [|m0 ms].
    - simpl in Hload. inversion Hload; subst. contradiction.
    - rewrite Hload. reflexivity. }
  split; [exact Hinit|]. split; [|split].
  - intros Hsurv. apply filter_In in Hsurv. destruct Hsurv as [_ Hexp].
    unfold hasDefaultExport in Hexp. now rewrite Hdef in Hexp.
  - intros r Hfirst. split.
    + unfold firstRedirect in Hfirst.
      destruct (find _ (filter hasDefaultExport loaded)) as [m'|] eqn:Hfind;
        [|discriminate].
      apply find_some in Hfind. destruct Hfind as [Hm' _].
      apply filter_In in Hm'. destruct Hm' as [Hm' Hexp].
      exists m'. repeat split; trivial.
      unfold hasDefaultExport in Hexp. destruct (defaultExport m'); discriminate.
    + now apply (fetch_redirected req ctx options h (req_url req)
                   (filter hasDefaultExport loaded) r w).
  - intros Hall.
    pose proof (survivors_without_redirect loaded Hall) as Hnone.
    pose proof (fetch_rendered req ctx options h _ _ w Hh Hinit Hnone) as Hfetch.
    split; [exact Hnone|]. split; [exact Hfetch|]. rewrite Hfetch. split.
    + destruct (respond_outcome req options
                  (localsAfter options h (req_url req) (filter hasDefaultExport loaded)
                     initialHeaders)
                  (logged (ready w)
                     [CallSsrHandler {| ctx_url := req_url req;
                                        ctx_modules := filter hasDefaultExport loaded;
                                        headCollection := [] |}])) as [[cs Hcs] _].
      rewrite Hcs. simpl. apply in_or_app. left. apply in_or_app. right. now left.
    + apply respond_outcome.
Qed.

End FilterFacts.

(** C9, on a route whose module redirects but exports no component: the
    render callback is called with the root layout alone. *)
Lemma redirect_dropped_with_module_witness :
  initSSR (P := Demo.platform) (Demo.request "/old") [] [Demo.appRoute; Demo.headlessRoute]
  = Ok (req_url (Demo.request "/old"), [Demo.appModule])
  /\ ~ In Demo.headlessModule [Demo.appModule]
  /\ In (CallSsrHandler
           {| ctx_url := req_url (Demo.request "/old");
              ctx_modules := [Demo.appModule];
              headCollection := [] |})
       (calls (snd (fetch (P := Demo.platform) (Demo.request "/old") []
                      (Demo.options [Demo.appRoute; Demo.headlessRoute] false
                         (Some (Demo.renders "<p>old</p>")))
                      Demo.world))).
Proof.
  destruct (redirect_dropped_with_module (P := Demo.platform) (Demo.request "/old") []
              (Demo.options [Demo.appRoute; Demo.headlessRoute] false
                 (Some (Demo.renders "<p>old</p>")))
              (Demo.renders "<p>old</p>")
              [Demo.appModule; Demo.headlessModule] Demo.headlessModule Demo.world
              eq_refl eq_refl (or_intror (or_introl eq_refl))
              ltac:(discriminate) eq_refl)
    as [Hinit [Hgone [_ Hrender]]].
  split; [exact Hinit|]. split; [exact Hgone|].
  apply Hrender.
  intros m' [Hm|[Hm|[]]] Hred; subst m'; [now elim Hred | reflexivity].
Defined.

(* ------------------------------------------------------------------ *)
(** ** The shared head/body handler *)

Section CommonHandlerFacts.
Context {P : Platform}.

(** Once [handled] is set the handler does nothing. *)
Lemma commonHandler_handled (table : list Route) (dev : bool) (ws : option string)
    (flags : HandlerFlags) (el : Element) :
  handled flags = true -> commonHandler table dev ws flags el = (flags, el).
Proof. intros H. unfold commonHandler. now rewrite H. Qed.

(** In development mode the first call sets [handled]: the work is done
    once, whichever of [head] and [body] comes first. *)
Lemma commonHandler_dev_sets_handled (table : list Route) (ws : option string)
    (flags : HandlerFlags) (el : Element) :
  handled (fst (commonHandler table true ws flags el)) = true.
Proof.
  unfold commonHandler. destruct (handled flags) eqn:H; [exact H | reflexivity].
Qed.

(** Outside development mode [handled] is never set: every call on a
    non-empty route table appends the route manifest again. *)
Lemma commonHandler_production_repeats (r : Route) (table : list Route)
    (ws : option string) (flags : HandlerFlags) (el : Element) :
  handled flags = false ->
  commonHandler (r :: table) false ws flags el
  = (flags, append el (routeManifestScript (r :: table))).
Proof. intros H. unfold commonHandler. now rewrite H. Qed.

End CommonHandlerFacts.

(** C8, at an input where the code departs from it: outside development
    mode, on a template with a [head] and a [body] and a non-empty route
    table, the pass appends the route manifest script twice, once at the
    end of each element. *)
Theorem route_manifest_appended_twice :
  HTMLRewriter_run (P := Demo.platform)
    (commonRegistrations (P := Demo.platform) (Demo.options Demo.site false None))
    Demo.template
  = ["<html>"; "<head>"; "<ssr-head>"; "</ssr-head>";
     routeManifestScript (P := Demo.platform) Demo.site; "</head>";
     "<body>"; "<ssr-body>"; "</ssr-body>";
     routeManifestScript (P := Demo.platform) Demo.site; "</body>"; "</html>"]
  /\ length (filter (String.eqb (routeManifestScript (P := Demo.platform) Demo.site))
               (HTMLRewriter_run (P := Demo.platform)
                  (commonRegistrations (P := Demo.platform)
                     (Demo.options Demo.site false None))
                  Demo.template)) = 2%nat
  /\ fst (fetch (P := Demo.platform) (Demo.request "/hello") []
            (Demo.options Demo.site false None) Demo.world)
     = Ok {| res_body :=
               Some (concat
                       ["<html>"; "<head>"; "<ssr-head>"; "</ssr-head>";
                        routeManifestScript (P := Demo.platform) Demo.site; "</head>";
                        "<body>"; "<ssr-body>"; "</ssr-body>";
                        routeManifestScript (P := Demo.platform) Demo.site; "</body>";
                        "</html>"]);
             res_status := 200;
             res_headers :=
               [("content-type", "text/html; charset=utf-8");
                ("last-modified", "Thu, 01 Jan 2026 00:00:00 GMT");
                ("cache-control", "public, max-age=0, must-revalidate")] |}.
Proof.
  split; [|split]; vm_compute; reflexivity.
Qed.

(* ================================================================== *)
(** * Further properties of the match list *)

Section ScanFacts.
Context {P : Platform}.

Lemma URLPattern_exec_inputs (p : URLPattern) (host pathname : string)
    (ret : URLPatternResult) :
  URLPattern_exec p host pathname = Some ret ->
  input (upr_host ret) = host /\ input (upr_pathname ret) = pathname.
Proof.
  unfold URLPattern_exec. destruct (pattern_match p host pathname); [|discriminate].
  intros H. inversion H. split; reflexivity.
Qed.

Lemma firstMatch_cases (try : Route -> option URLPatternResult) (table : list Route) :
  firstMatch try table = []
  \/ exists ret route,
       firstMatch try table = [(ret, route)] /\ In route table /\ try route = Some ret.
Proof.
  induction table as [|r rest IH]; simpl; [now left|].
  destruct (try r) as [ret|] eqn:Htry.
  - right. exists ret, r. auto.
  - destruct IH as [IH | [ret [route [Heq [Hin Hr]]]]]; [now left|].
    right. exists ret, route. auto.
Qed.

Lemma firstAncestor_cases (host : string) (route : Route) (pathnames : list string) :
  firstAncestor host route pathnames = []
  \/ exists ret pathname,
       firstAncestor host route pathnames = [(ret, route)]
       /\ In pathname pathnames
       /\ URLPattern_exec (pattern route) host pathname = Some ret.
Proof.
  induction pathnames as [|p rest IH]; simpl; [now left|].
  destruct (URLPattern_exec (pattern route) host p) as [ret|] eqn:Hexec.
  - right. exists ret, p. auto.
  - destruct IH as [IH | [ret [q [Heq [Hin Hq]]]]]; [now left|].
    right. exists ret, q. auto.
Qed.

Lemma scanRoute_recorded (url : URL) (table : list Route) (route : Route)
    (m : RouteMatch) :
  In route table -> In m (scanRoute url table route) -> recordedBy url table m.
Proof.
  intros Hroute. unfold scanRoute.
  destruct (URLPattern_exec (pattern route) (url_host url) (url_pathname url))
    as [ret|] eqn:Hexec.
  - intros [Hm|Hm].
    + subst m. split; [exact Hroute|]. exists (url_pathname url). auto.
    + destruct (nesting (meta route)
                && negb (String.eqb (meta_pattern_pathname (meta route)) "/_app"))%bool;
        [|contradiction].
      destruct (firstMatch_cases
                  (fun r => URLPattern_exec (pattern r) (url_host url)
                              (url_pathname url +:+ "/index")) table)
        as [Hnil | [ret' [r' [Heq [Hin Hr']]]]].
      * rewrite Hnil in Hm. contradiction.
      * rewrite Heq in Hm. destruct Hm as [Hm|[]]. subst m.
        split; [exact Hin|]. exists (url_pathname url +:+ "/index"). auto.
  - destruct (nesting (meta route)); [|contradiction].
    destruct (firstAncestor_cases (url_host url) route
                (ancestorPathnames (splitPath (url_pathname url))))
      as [Hnil | [ret' [q [Heq [Hin Hq]]]]].
    + rewrite Hnil. contradiction.
    + rewrite Heq. intros [Hm|[]]. subst m.
      split; [exact Hroute|]. exists q. auto.
Qed.

Lemma findByPatternPathname_In (name : string) (table : list Route) (route : Route) :
  findByPatternPathname name table = Some route ->
  In route table /\ meta_pattern_pathname (meta route) = name.
Proof.
  unfold findByPatternPathname. intros H. apply find_some in H.
  destruct H as [Hin Heq]. apply String.eqb_eq in Heq. auto.
Qed.

(** The match list is the scan, in its order, with at most one synthetic
    match in front (the root layout) and at most one behind (not found). *)
Lemma matchRoutes_shape (url : URL) (table : list Route) :
  exists front back,
    matchRoutes url table = (front ++ scanRoutes url table ++ back)%list
    /\ (front = []
        \/ exists layout,
             findByPatternPathname "/_app" table = Some layout
             /\ front = [(createStaticURLPatternResult (url_host url) "/_app", layout)])
    /\ (back = []
        \/ exists notFound,
             findByPatternPathname "/_404" table = Some notFound
             /\ length (filter isLeaf (scanRoutes url table)) = 0%nat
             /\ back = [(createStaticURLPatternResult (url_host url) "/_404", notFound)]).
Proof.
  unfold matchRoutes. destruct table as [|r0 table'].
  - exists [], []. simpl. auto.
  - set (table := r0 :: table').
    assert (Hback : exists back,
               withNotFound url table (scanRoutes url table)
               = (scanRoutes url table ++ back)%list
               /\ (back = []
                   \/ exists notFound,
                        findByPatternPathname "/_404" table = Some notFound
                        /\ length (filter isLeaf (scanRoutes url table)) = 0%nat
                        /\ back = [(createStaticURLPatternResult (url_host url) "/_404",
                                    notFound)])).
    { unfold withNotFound.
      destruct (Nat.eqb_spec (length (filter isLeaf (scanRoutes url table))) 0)
        as [Hzero|Hpos].
      - destruct (findByPatternPathname "/_404" table) as [notFound|] eqn:Hfind.
        + eexists. split; [reflexivity|]. right. exists notFound. auto.
        + exists []. rewrite app_nil_r. auto.
      - exists []. rewrite app_nil_r. auto. }
    destruct Hback as [back [Hwith Hback]]. rewrite Hwith.
    unfold withRootLayout.
    destruct (scanRoutes url table ++ back)%list as [|first rest] eqn:Hrec.
    + exists [], back. rewrite Hrec. auto.
    + destruct (negb (String.eqb (input (upr_pathname (fst first))) "/_app")).
      * destruct (findByPatternPathname "/_app" table) as [layout|] eqn:Hfind.
        -- exists [(createStaticURLPatternResult (url_host url) "/_app", layout)], back.
           rewrite Hrec. split; [reflexivity|]. split; [|exact Hback].
           right. exists layout. auto.
        -- exists [], back. rewrite Hrec. auto.
      * exists [], back. rewrite Hrec. auto.
Qed.

(** X1.  Every match of the match list pairs a route of the table; the
    matches the scan records are results of their own route's pattern on
    the request host and on one of the candidate pathnames. *)
Theorem matches_come_from_table (url : URL) (table : list Route) :
  Forall (recordedBy url table) (scanRoutes url table)
  /\ Forall (fun m => In (snd m) table) (matchRoutes url table).
Proof.
  assert (Hscan : Forall (recordedBy url table) (scanRoutes url table)).
  { apply Forall_forall. intros m Hm. unfold scanRoutes in Hm.
    apply in_flat_map in Hm. destruct Hm as [route [Hroute Hm]].
    now apply (scanRoute_recorded url table route). }
  split; [exact Hscan|].
  destruct (matchRoutes_shape url table) as [front [back [Heq [Hfront Hback]]]].
  rewrite Heq. apply Forall_app. split; [|apply Forall_app; split].
  - destruct Hfront as [->|[layout [Hfind ->]]]; [constructor|].
    constructor; [|constructor]. simpl. now apply (findByPatternPathname_In "/_app").
  - apply Forall_forall. intros m Hm. rewrite Forall_forall in Hscan.
    now destruct (Hscan m Hm).
  - destruct Hback as [->|[notFound [Hfind [_ ->]]]]; [constructor|].
    constructor; [|constructor]. simpl. now apply (findByPatternPathname_In "/_404").
Qed.

(** X2.  The match list is the scan in its order with at most one
    synthetic match added at each end: in front the root layout, behind the
    not-found route, the latter only when the scan recorded no leaf. *)
Theorem synthetic_matches_at_the_ends (url : URL) (table : list Route) :
  exists front back,
    matchRoutes url table = (front ++ scanRoutes url table ++ back)%list
    /\ (front = []
        \/ exists layout,
             findByPatternPathname "/_app" table = Some layout
             /\ front = [(createStaticURLPatternResult (url_host url) "/_app", layout)])
    /\ (back = []
        \/ exists notFound,
             findByPatternPathname "/_404" table = Some notFound
             /\ length (filter isLeaf (scanRoutes url table)) = 0%nat
             /\ back = [(createStaticURLPatternResult (url_host url) "/_404", notFound)]).
Proof. apply matchRoutes_shape. Qed.

Lemma scanRoute_length (url : URL) (table : list Route) (route : Route) :
  (length (scanRoute url table route) <= 2)%nat.
Proof.
  unfold scanRoute.
  destruct (URLPattern_exec (pattern route) (url_host url) (url_pathname url)).
  - simpl. destruct (_ && _)%bool; simpl; [|lia].
    destruct (firstMatch_cases
                (fun r => URLPattern_exec (pattern r) (url_host url)
                            (url_pathname url +:+ "/index")) table)
      as [-> | [ret' [r' [-> _]]]]; simpl; lia.
  - destruct (nesting (meta route)); simpl; [|lia].
    destruct (firstAncestor_cases (url_host url) route
                (ancestorPathnames (splitPath (url_pathname url))))
      as [-> | [ret' [q [-> _]]]]; simpl; lia.
Qed.

Lemma flat_map_length_bound {A B} (f : A -> list B) (k : nat) (xs : list A) :
  (forall x, (length (f x) <= k)%nat) ->
  (length (flat_map f xs) <= k * length xs)%nat.
Proof.
  intros Hf. induction xs as [|x rest IH]; simpl; [lia|].
  rewrite length_app. specialize (Hf x). nia.
Qed.

(** X3.  A route records at most two matches (itself and an index sibling,
    or one ancestor match), so the match list has at most two matches per
    route of the table and two synthetic ones. *)
Theorem match_list_bound (url : URL) (table : list Route) :
  (length (scanRoutes url table) <= 2 * length table)%nat
  /\ (length (matchRoutes url table) <= 2 * length table + 2)%nat.
Proof.
  assert (Hscan : (length (scanRoutes url table) <= 2 * length table)%nat).
  { unfold scanRoutes. apply flat_map_length_bound. apply scanRoute_length. }
  split; [exact Hscan|].
  destruct (matchRoutes_shape url table) as [front [back [Heq [Hfront Hback]]]].
  rewrite Heq, !length_app.
  assert (length front <= 1)%nat
    by (destruct Hfront as [->|[layout [_ ->]]]; simpl; lia).
  assert (length back <= 1)%nat
    by (destruct Hback as [->|[notFound [_ [_ ->]]]]; simpl; lia).
  lia.
Qed.

End ScanFacts.

Section AncestorFacts.
Context {P : Platform}.

Lemma rev_seq_S (k : nat) : rev (seq 1 (S k)) = S k :: rev (seq 1 k).
Proof. rewrite seq_S, rev_app_distr. reflexivity. Qed.

(** The search over the candidates [f k], ..., [f 1]: the first hit, that
    is the one of greatest index, or nothing. *)
Lemma firstAncestor_descending (host : string) (route : Route)
    (f : nat -> string) (k : nat) :
  (firstAncestor host route (map f (rev (seq 1 k))) = []
   /\ forall i, (1 <= i <= k)%nat -> URLPattern_exec (pattern route) host (f i) = None)
  \/ exists i ret,
       (1 <= i <= k)%nat
       /\ URLPattern_exec (pattern route) host (f i) = Some ret
       /\ firstAncestor host route (map f (rev (seq 1 k))) = [(ret, route)]
       /\ forall j, (i < j <= k)%nat -> URLPattern_exec (pattern route) host (f j) = None.
Proof.
  induction k as [|k IH].
  - left. split; [reflexivity|]. intros i Hi. lia.
  - rewrite rev_seq_S. simpl.
    destruct (URLPattern_exec (pattern route) host (f (S k))) as [ret|] eqn:Hexec.
    + right. exists (S k), ret.
      split; [lia|]. split; [exact Hexec|]. split; [reflexivity|]. intros j Hj. lia.
    + destruct IH as [[Hnil Hall] | [i [ret [Hi [Hhit [Heq Hnone]]]]]].
      * left. split; [exact Hnil|]. intros i Hi.
        destruct (Nat.eq_dec i (S k)) as [->|Hne]; [exact Hexec | apply Hall; lia].
      * right. exists i, ret.
        split; [lia|]. split; [exact Hhit|]. split; [exact Heq|]. intros j Hj.
        destruct (Nat.eq_dec j (S k)) as [->|Hne]; [exact Hexec | apply Hnone; lia].
Qed.

(** X4.  A nesting route that does not match the request path is tried on
    the proper prefixes of the path, from the longest down to the first
    segment: it records one match, on the longest prefix it matches, or
    nothing.  The whole path and the root [/] are not tried. *)
Theorem longest_ancestor_wins (url : URL) (table : list Route) (route : Route) :
  URLPattern_exec (pattern route) (url_host url) (url_pathname url) = None ->
  nesting (meta route) = true ->
  (scanRoute url table route = []
   /\ forall i, (1 <= i < length (splitPath (url_pathname url)))%nat ->
        URLPattern_exec (pattern route) (url_host url)
          ("/" +:+ join "/" (firstn i (splitPath (url_pathname url)))) = None)
  \/ exists i ret,
       (1 <= i < length (splitPath (url_pathname url)))%nat
       /\ URLPattern_exec (pattern route) (url_host url)
            ("/" +:+ join "/" (firstn i (splitPath (url_pathname url)))) = Some ret
       /\ scanRoute url table route = [(ret, route)]
       /\ forall j, (i < j < length (splitPath (url_pathname url)))%nat ->
            URLPattern_exec (pattern route) (url_host url)
              ("/" +:+ join "/" (firstn j (splitPath (url_pathname url)))) = None.
Proof.
  intros Hexec Hnest. unfold scanRoute. rewrite Hexec, Hnest. unfold ancestorPathnames.
  destruct (firstAncestor_descending (url_host url) route
              (fun i => "/" +:+ join "/" (firstn i (splitPath (url_pathname url))))
              (length (splitPath (url_pathname url)) - 1))
    as [[Hnil Hall] | [i [ret [Hi [Hhit [Heq Hnone]]]]]].
  - left. split; [exact Hnil|]. intros i Hi. apply Hall. lia.
  - right. exists i, ret.
    split; [lia|]. split; [exact Hhit|]. split; [exact Heq|].
    intros j Hj. apply Hnone. lia.
Qed.

Lemma withRootLayout_nil (url : URL) (table : list Route) (ms : list RouteMatch) :
  withRootLayout url table ms = [] <-> ms = [].
Proof.
  unfold withRootLayout. destruct ms as [|first rest]; [tauto|].
  destruct (negb _); [destruct (findByPatternPathname "/_app" table)|];
    split; intros H; discriminate H.
Qed.

Lemma withNotFound_nil (url : URL) (table : list Route) (ms : list RouteMatch) :
  withNotFound url table ms = []
  <-> ms = [] /\ findByPatternPathname "/_404" table = None.
Proof.
  unfold withNotFound. destruct ms as [|m rest].
  - simpl. destruct (findByPatternPathname "/_404" table).
    + split; [intros H; discriminate H | intros [_ H]; discriminate H].
    + tauto.
  - destruct (Nat.eqb _ 0); [destruct (findByPatternPathname "/_404" table)|];
      (split; [intros H; discriminate H | intros [H _]; discriminate H]).
Qed.

(** X5.  The match list is empty exactly when the scan records nothing and
    the table has no [/_404] route: a root layout never makes a match list
    on its own.  [initSSR] then returns no module, without importing any. *)
Theorem empty_match_list (req : Request) (ctx : FetchContext) (table : list Route) :
  (matchRoutes (req_url req) table = []
   <-> scanRoutes (req_url req) table = []
       /\ findByPatternPathname "/_404" table = None)
  /\ (matchRoutes (req_url req) table = [] ->
      initSSR req ctx table = Ok (req_url req, [])).
Proof.
  split.
  - unfold matchRoutes. destruct table as [|r0 table']; [simpl; tauto|].
    rewrite withRootLayout_nil. apply withNotFound_nil.
  - intros Hempty. unfold initSSR. now rewrite Hempty.
Qed.

End AncestorFacts.

(** X4, on a request below the section layout of the demo. *)
Lemma longest_ancestor_wins_witness :
  exists i ret,
    (1 <= i < length (Demo.segments "/docs/a/b"))%nat
    /\ URLPattern_exec (pattern Demo.docsRoute) "localhost"
         ("/" +:+ join "/" (firstn i (Demo.segments "/docs/a/b"))) = Some ret
    /\ scanRoute (P := Demo.platform) (req_url (Demo.request "/docs/a/b"))
         [Demo.docsRoute] Demo.docsRoute = [(ret, Demo.docsRoute)]
    /\ forall j, (i < j < length (Demo.segments "/docs/a/b"))%nat ->
         URLPattern_exec (pattern Demo.docsRoute) "localhost"
           ("/" +:+ join "/" (firstn j (Demo.segments "/docs/a/b"))) = None.
Proof.
  destruct (longest_ancestor_wins (P := Demo.platform)
              (req_url (Demo.request "/docs/a/b")) [Demo.docsRoute] Demo.docsRoute
              eq_refl eq_refl) as [[Hnil _] | H].
  - discriminate Hnil.
  - exact H.
Defined.

(* ================================================================== *)
(** * Further properties of the data loading *)

Lemma Promise_all_Forall2 {A B} (f : A -> result B) (xs : list A) (ys : list B) :
  Promise_all f xs = Ok ys -> Forall2 (fun x y => f x = Ok y) xs ys.
Proof.
  revert ys. induction xs as [|x rest IH]; simpl; intros ys H.
  - inversion H. constructor.
  - destruct (f x) as [y|e] eqn:Hfx; simpl in H; [|discriminate].
    destruct (Promise_all f rest) as [ys'|e]; simpl in H; [|discriminate].
    inversion H. constructor; [exact Hfx | now apply IH].
Qed.

Lemma Promise_all_rejects {A B} (f : A -> result B) (xs : list A) (x : A) (e : JsError) :
  In x xs -> f x = Throw e -> exists e', Promise_all f xs = Throw e'.
Proof.
  induction xs as [|x0 rest IH]; simpl; intros Hin Hfx; [contradiction|].
  destruct (f x0) as [y|e0] eqn:Hfx0; simpl; [|now exists e0].
  destruct Hin as [->|Hin]; [congruence|].
  destruct (IH Hin Hfx) as [e' ->]. simpl. now exists e'.
Qed.

Section LoadingOrderFacts.
Context {P : Platform}.

(** [applyResponse] writes [data], [error] and [redirect] only. *)
Lemma applyResponse_frame (base : SSRModule) (res : Response) :
  ssr_url (applyResponse base res) = ssr_url base
  /\ filename (applyResponse base res) = filename base
  /\ defaultExport (applyResponse base res) = defaultExport base
  /\ dataCacheTtl (applyResponse base res) = dataCacheTtl base.
Proof.
  unfold applyResponse.
  destruct (res_status res >=? 400); [repeat split|].
  destruct (res_status res >=? 300);
    [destruct (Headers_has (res_headers res) "Location"); repeat split|].
  destruct (JSON_parse (Response_text res)); repeat split.
Qed.

Lemma loadModule_frame (req : Request) (ctx : FetchContext) (url : URL)
    (m : RouteMatch) (ssrModule : SSRModule) :
  loadModule req ctx url m = Ok ssrModule ->
  exists imported,
    imp (snd m) = Ok imported
    /\ ssr_url ssrModule = moduleUrl url (fst m)
    /\ filename ssrModule = meta_filename (meta (snd m))
    /\ defaultExport ssrModule = mod_default imported
    /\ dataCacheTtl ssrModule = cacheTtl (dataConfigOf imported).
Proof.
  unfold loadModule. destruct (imp (snd m)) as [imported|e]; simpl; [|discriminate].
  intros H. exists imported. split; [reflexivity|].
  destruct (get (dataConfigOf imported)) as [fetcher|].
  - destruct (fetcher _ ctx) as [[res|]|e]; simpl in H; inversion H; subst; clear H.
    + destruct (applyResponse_frame
                  {| ssr_url := moduleUrl url (fst m);
                     filename := meta_filename (meta (snd m));
                     defaultExport := mod_default imported;
                     dataCacheTtl := cacheTtl (dataConfigOf imported);
                     data := None; error := None; redirect := None |} res)
        as [H1 [H2 [H3 H4]]].
      rewrite H1, H2, H3, H4. repeat split.
    + repeat split.
  - inversion H. repeat split.
Qed.

(** X6.  When the loading succeeds there is one module per match, in the
    order of the match list.  The URL, file name, default export and TTL of
    a module come from its match and from the imported module: what the
    data fetcher answers does not change them. *)
Theorem modules_follow_matches (req : Request) (ctx : FetchContext)
    (table : list Route) (loaded : list SSRModule) :
  loadModules req ctx table = Ok loaded ->
  Forall2
    (fun m ssrModule =>
       exists imported,
         imp (snd m) = Ok imported
         /\ ssr_url ssrModule = moduleUrl (req_url req) (fst m)
         /\ filename ssrModule = meta_filename (meta (snd m))
         /\ defaultExport ssrModule = mod_default imported
         /\ dataCacheTtl ssrModule = cacheTtl (dataConfigOf imported))
    (matchRoutes (req_url req) table) loaded
  /\ length loaded = length (matchRoutes (req_url req) table)
  /\ map filename loaded
     = map (fun m => meta_filename (meta (snd m))) (matchRoutes (req_url req) table).
Proof.
  unfold loadModules. intros Hall. apply Promise_all_Forall2 in Hall.
  assert (Hframe : Forall2
            (fun m ssrModule =>
               exists imported,
                 imp (snd m) = Ok imported
                 /\ ssr_url ssrModule = moduleUrl (req_url req) (fst m)
                 /\ filename ssrModule = meta_filename (meta (snd m))
                 /\ defaultExport ssrModule = mod_default imported
                 /\ dataCacheTtl ssrModule = cacheTtl (dataConfigOf imported))
            (matchRoutes (req_url req) table) loaded).
  { induction Hall as [|m y ms ys Hm _ IH]; constructor; [|exact IH].
    now apply (loadModule_frame req ctx (req_url req)). }
  split; [exact Hframe|]. split.
  - symmetry. apply (Forall2_length Hframe).
  - clear Hall. induction Hframe as [|m y ms ys [imported [_ [_ [Hfile _]]]] _ IH];
      simpl; [reflexivity|]. now rewrite Hfile, IH.
Qed.

(** X7.  A failure while loading one matched module is not contained: when
    the import or the data fetcher of any match throws, [initSSR] throws,
    and so does [fetch]: the render callback is not called and no fallback
    page is produced. *)
Theorem loading_failure_propagates (req : Request) (ctx : FetchContext)
    (options : RenderOptions) (h : SSRContext -> RenderOutcome)
    (m : RouteMatch) (e : JsError) (w : World) :
  ssrHandler options = Some h ->
  In m (matchRoutes (req_url req) (routes options)) ->
  loadModule req ctx (req_url req) m = Throw e ->
  exists e',
    initSSR req ctx (routes options) = Throw e'
    /\ fetch req ctx options w = (Throw e', ready w).
Proof.
  intros Hh Hin Hthrow.
  destruct (Promise_all_rejects (loadModule req ctx (req_url req)) _ m e Hin Hthrow)
    as [e' He'].
  exists e'.
  assert (Hinit : initSSR req ctx (routes options) = Throw e').
  { unfold initSSR, loadModules.
    destruct (matchRoutes (req_url req) (routes options)) as [|m0 ms];
      [contradiction|].
    now rewrite He'. }
  split; [exact Hinit|].
  unfold fetch, bind. rewrite ensureLolHtml_ready.
  unfold ssrPhase. rewrite Hh. unfold bind, lift. now rewrite Hinit.
Qed.

(** X8.  An error recorded on a module has a status of 400 or more: the
    status of the response when that is 400 or more, and 400 for a redirect
    without [Location] and for a body that is not JSON. *)
Theorem error_status_at_least_400 (req : Request) (ctx : FetchContext)
    (table : list Route) (url : URL) (modules : list SSRModule)
    (ssrModule : SSRModule) (e : ErrorInfo) :
  initSSR req ctx table = Ok (url, modules) ->
  In ssrModule modules ->
  error ssrModule = Some e ->
  400 <= err_status e.
Proof.
  intros Hinit Hin Herr.
  assert (Hload : exists m, loadModule req ctx (req_url req) m = Ok ssrModule).
  { unfold initSSR in Hinit.
    destruct (matchRoutes (req_url req) table) eqn:Hmatch.
    - inversion Hinit; subst. contradiction.
    - unfold loadModules in Hinit. rewrite Hmatch in Hinit.
      destruct (Promise_all _ (r :: l)) as [loaded|e0] eqn:Hall; simpl in Hinit;
        [|discriminate].
      inversion Hinit; subst. apply filter_In in Hin. destruct Hin as [Hin _].
      destruct (Promise_all_In _ _ _ Hall _ Hin) as [m [_ Hm]]. now exists m. }
  destruct Hload as [m Hm].
  destruct (loadModule_cases _ _ _ _ _ Hm) as [base [_ [He [_ [Heq | [res Heq]]]]]];
    subst ssrModule.
  - congruence.
  - unfold applyResponse in Herr.
    destruct (Z.geb_spec (res_status res) 400) as [H400|H400].
    + simpl in Herr. inversion Herr. simpl. lia.
    + destruct (res_status res >=? 300).
      * destruct (Headers_has (res_headers res) "Location"); simpl in Herr.
        -- congruence.
        -- inversion Herr. simpl. lia.
      * destruct (JSON_parse (Response_text res)); simpl in Herr.
        -- congruence.
        -- inversion Herr. simpl. lia.
Qed.

End LoadingOrderFacts.

(** X6, on the blog of the demo. *)
Lemma modules_follow_matches_witness :
  length Demo.blogModules
  = length (matchRoutes (P := Demo.platform) (req_url (Demo.request "/blog")) Demo.blog)
  /\ map filename Demo.blogModules
     = map (fun m => meta_filename (meta (snd m)))
         (matchRoutes (P := Demo.platform) (req_url (Demo.request "/blog")) Demo.blog).
Proof.
  apply (modules_follow_matches (P := Demo.platform) (Demo.request "/blog") []
           Demo.blog Demo.blogModules).
  reflexivity.
Defined.

(** X7, on a route of the demo whose module cannot be imported. *)
Lemma loading_failure_propagates_witness :
  exists e',
    initSSR (P := Demo.platform) (Demo.request "/broken") []
      [Demo.appRoute; Demo.brokenRoute] = Throw e'
    /\ fetch (P := Demo.platform) (Demo.request "/broken") []
         (Demo.options [Demo.appRoute; Demo.brokenRoute] false
            (Some (Demo.renders "<p>never</p>")))
         Demo.world
       = (Throw e', ready Demo.world).
Proof.
  apply (loading_failure_propagates (P := Demo.platform) (Demo.request "/broken") []
           (Demo.options [Demo.appRoute; Demo.brokenRoute] false
              (Some (Demo.renders "<p>never</p>")))
           (Demo.renders "<p>never</p>")
           (Demo.staticResult "localhost" "/broken", Demo.brokenRoute)
           {| message := "./routes/broken.tsx";
              stack := "Error: ./routes/broken.tsx" |}
           Demo.world).
  - reflexivity.
  - right. left. reflexivity.
  - reflexivity.
Defined.

(** X8, on the module of the demo route that answers 302 without
    [Location]. *)
Lemma error_status_at_least_400_witness : 400 <= 400.
Proof.
  apply (error_status_at_least_400 (P := Demo.platform) (Demo.request "/login") []
           [Demo.loginRoute] (req_url (Demo.request "/login"))
           [Demo.loginModule] Demo.loginModule
           {| err_message :=
                "Missing the " +:+ backtick +:+ "Location" +:+ backtick +:+ " header";
              err_status := 400 |}).
  - reflexivity.
  - left. reflexivity.
  - reflexivity.
Defined.

(* ================================================================== *)
(** * Further properties of fetch *)

Section FetchPaths.
Context {P : Platform}.

Lemma logged_nil (w : World) : logged w [] = w.
Proof. destruct w. unfold logged. simpl. now rewrite app_nil_r. Qed.

Lemma ready_ready (w : World) : lolHtmlReady w = true -> ready w = w.
Proof. intros H. unfold ready, ensureLolHtml. now rewrite H. Qed.

Lemma lolHtmlReady_ready (w : World) : lolHtmlReady (ready w) = true.
Proof. unfold ready, ensureLolHtml. destruct (lolHtmlReady w) eqn:H; [exact H | reflexivity]. Qed.

(** The paths of [fetch]. *)
Lemma fetch_paths (req : Request) (ctx : FetchContext) (options : RenderOptions)
    (w : World) :
  fetch req ctx options w
  = match ssrHandler options with
    | None => respond req options (false, initialHeaders, []) (ready w)
    | Some h =>
        match initSSR req ctx (routes options) with
        | Throw e => (Throw e, ready w)
        | Ok (url, modules) =>
            match firstRedirect modules with
            | Some r =>
                (Ok {| res_body := None; res_status := redirect_status r;
                       res_headers := redirect_headers r |}, ready w)
            | None =>
                respond req options (localsAfter options h url modules initialHeaders)
                  (logged (ready w)
                     [CallSsrHandler {| ctx_url := url; ctx_modules := modules;
                                        headCollection := [] |}])
            end
        end
    end.
Proof.
  destruct (ssrHandler options) as [h|] eqn:Hh.
  - destruct (initSSR req ctx (routes options)) as [[url modules]|e] eqn:Hinit.
    + destruct (firstRedirect modules) as [r|] eqn:Hred.
      * now apply (fetch_redirected req ctx options h url modules r w).
      * now apply (fetch_rendered req ctx options h url modules w).
    + unfold fetch, bind. rewrite ensureLolHtml_ready.
      unfold ssrPhase. rewrite Hh. unfold bind, lift. now rewrite Hinit.
  - now apply fetch_without_handler.
Qed.

(** The paths of [respond]. *)
Lemma respond_paths (req : Request) (options : RenderOptions) (ssr : bool)
    (headers : Headers) (regs : Registrations) (w : World) :
  respond req options (ssr, headers, regs) w
  = if ssr
    then (Ok {| res_body :=
                  Some (concat (HTMLRewriter_run (regs ++ commonRegistrations options)%list
                                  (indexHtml options)));
                res_status := 200;
                res_headers := headers |},
          logged w [CallRewriterWrite (map fst (regs ++ commonRegistrations options)%list)])
    else
      match lstat_mtimeUTC with
      | Throw e => (Throw e, logged w [CallLstat])
      | Ok (Some mtimeUTC) =>
          if sameHeader (Headers_get (req_headers req) "If-Modified-Since") mtimeUTC
          then (Ok {| res_body := None; res_status := 304; res_headers := [] |},
                logged w [CallLstat])
          else (Ok {| res_body :=
                        Some (concat (HTMLRewriter_run
                                        (regs ++ commonRegistrations options)%list
                                        (indexHtml options)));
                      res_status := 200;
                      res_headers :=
                        Headers_append (Headers_append headers "Last-Modified" mtimeUTC)
                          "Cache-Control" nonCacheable |},
                logged w [CallLstat;
                          CallRewriterWrite
                            (map fst (regs ++ commonRegistrations options)%list)])
      | Ok None =>
          (Ok {| res_body :=
                   Some (concat (HTMLRewriter_run
                                   (regs ++ commonRegistrations options)%list
                                   (indexHtml options)));
                 res_status := 200;
                 res_headers := Headers_append headers "Cache-Control" nonCacheable |},
           logged w [CallLstat;
                     CallRewriterWrite
                       (map fst (regs ++ commonRegistrations options)%list)])
      end.
Proof.
  unfold respond, staticPhase, bind, call, lift, ret, logged.
  destruct ssr; simpl; [reflexivity|].
  destruct lstat_mtimeUTC as [[t|]|e]; simpl; [|now rewrite <- app_assoc | reflexivity].
  destruct (sameHeader _ t); simpl; [reflexivity | now rewrite <- app_assoc].
Qed.

(** What a render leaves: no render took place, or one [Cache-Control]
    value was appended to the initial headers. *)
Lemma localsAfter_cases (options : RenderOptions) (h : SSRContext -> RenderOutcome)
    (url : URL) (modules : list SSRModule) :
  (localsAfter options h url modules initialHeaders = (false, initialHeaders, [])
   /\ completion (h {| ctx_url := url; ctx_modules := modules; headCollection := [] |})
      = Ok None)
  \/ exists value regs,
       localsAfter options h url modules initialHeaders
       = (true, Headers_append initialHeaders "Cache-Control" value, regs)
       /\ (value = nonCacheable \/ value = cacheControl modules).
Proof.
  unfold localsAfter.
  destruct (completion (h _)) as [[out|]|e].
  - destruct (collectStyles (isDev options) modules) as [styles|e];
      right; eexists; eexists; split; [reflexivity | auto | reflexivity | auto].
  - now left.
  - right. eexists. eexists. split; [reflexivity | auto].
Qed.

Lemma initSSR_module_loaded (req : Request) (ctx : FetchContext) (table : list Route)
    (url : URL) (modules : list SSRModule) (ssrModule : SSRModule) :
  initSSR req ctx table = Ok (url, modules) ->
  In ssrModule modules ->
  exists m, In m (matchRoutes (req_url req) table)
            /\ loadModule req ctx (req_url req) m = Ok ssrModule.
Proof.
  intros Hinit Hin. unfold initSSR in Hinit.
  destruct (matchRoutes (req_url req) table) eqn:Hmatch.
  - inversion Hinit; subst. contradiction.
  - unfold loadModules in Hinit. rewrite Hmatch in Hinit.
    destruct (Promise_all _ (r :: l)) as [loaded|e0] eqn:Hall; simpl in Hinit;
      [|discriminate].
    inversion Hinit; subst. apply filter_In in Hin. destruct Hin as [Hin _].
    destruct (Promise_all_In _ _ _ Hall _ Hin) as [m [Hm1 Hm2]]. now exists m.
Qed.

Lemma firstRedirect_from_module (modules : list SSRModule) (r : Redirect) :
  firstRedirect modules = Some r ->
  exists m, In m modules /\ redirect m = Some r.
Proof.
  unfold firstRedirect. destruct (find _ modules) as [m|] eqn:Hfind; [|discriminate].
  apply find_some in Hfind. destruct Hfind as [Hin _]. intros H. now exists m.
Qed.

(** X9.  A response of [fetch] is of one of three kinds.  With a body: a
    200 page with the HTML content type and exactly one [Cache-Control]
    header.  Without a body: a 304 without headers, or a redirect with a
    status from 300 to 399 and a [Location] header. *)
Theorem response_kinds (req : Request) (ctx : FetchContext) (options : RenderOptions)
    (w : World) (response : Response) :
  fst (fetch req ctx options w) = Ok response ->
  (res_body response <> None
   /\ res_status response = 200
   /\ Headers_get (res_headers response) "Content-Type"
      = Some "text/html; charset=utf-8"
   /\ length (filter (named "Cache-Control") (res_headers response)) = 1%nat)
  \/ (res_body response = None
      /\ ((res_status response = 304 /\ res_headers response = [])
          \/ (300 <= res_status response < 400
              /\ Headers_has (res_headers response) "Location" = true))).
Proof.
  rewrite fetch_paths.
  assert (Hrespond : forall ssr headers regs w0,
             (ssr = false -> headers = initialHeaders) ->
             (ssr = true -> exists value,
                 headers = Headers_append initialHeaders "Cache-Control" value) ->
             fst (respond req options (ssr, headers, regs) w0) = Ok response ->
             (res_body response <> None
              /\ res_status response = 200
              /\ Headers_get (res_headers response) "Content-Type"
                 = Some "text/html; charset=utf-8"
              /\ length (filter (named "Cache-Control") (res_headers response)) = 1%nat)
             \/ (res_body response = None
                 /\ ((res_status response = 304 /\ res_headers response = [])
                     \/ (300 <= res_status response < 400
                         /\ Headers_has (res_headers response) "Location" = true)))).
  { intros ssr headers regs w0 Hstatic Hssr. rewrite respond_paths.
    destruct ssr.
    - destruct (Hssr eq_refl) as [value ->]. simpl. intros H. inversion H.
      left. simpl. repeat split. discriminate.
    - rewrite (Hstatic eq_refl).
      destruct lstat_mtimeUTC as [[t|]|e]; [| |discriminate].
      + destruct (sameHeader _ t); simpl; intros H; inversion H; simpl.
        * right. auto.
        * left. repeat split. discriminate.
      + simpl. intros H. inversion H. left. simpl. repeat split. discriminate. }
  destruct (ssrHandler options) as [h|].
  - destruct (initSSR req ctx (routes options)) as [[url modules]|e] eqn:Hinit;
      [|discriminate].
    destruct (firstRedirect modules) as [r|] eqn:Hred.
    + simpl. intros H. inversion H. simpl. right. split; [reflexivity|]. right.
      destruct (firstRedirect_from_module modules r Hred) as [m [Hin Hr]].
      destruct (initSSR_module_loaded req ctx _ url modules m Hinit Hin) as [mt [_ Hload]].
      destruct (loadModule_cases _ _ _ _ _ Hload)
        as [base [Hd [He [Hb [Heq | [res Heq]]]]]]; subst m.
      * congruence.
      * destruct (applyResponse_fresh base res Hd He Hb) as [Hredir _].
        destruct (Hredir r Hr) as [_ [_ [-> [Hloc Hrange]]]]. simpl. auto.
    + destruct (localsAfter_cases options h url modules)
        as [[-> _] | [value [regs [-> _]]]].
      * apply Hrespond; [reflexivity | discriminate].
      * apply Hrespond; [discriminate | intros _; now exists value].
  - apply Hrespond; [reflexivity | discriminate].
Qed.

(** X10.  [fetch] calls the initialisation of the rewriter only when the
    flag is unset, then once and before any other call; when the flag is
    set it makes no initialisation call and leaves the flag set. *)
Theorem initialisation_only_when_unset (req : Request) (ctx : FetchContext)
    (options : RenderOptions) (w : World) :
  (exists cs,
     calls (snd (fetch req ctx options w))
     = (calls w ++ (if lolHtmlReady w then [] else [CallInitWasm]) ++ cs)%list
     /\ ~ In CallInitWasm cs)
  /\ (lolHtmlReady w = true -> lolHtmlReady (snd (fetch req ctx options w)) = true).
Proof.
  assert (Hrespond : forall rq opts locals w0,
             exists cs, snd (respond rq opts locals w0) = logged w0 cs
                        /\ ~ In CallInitWasm cs).
  { intros rq opts [[ssr headers] regs] w0. rewrite respond_paths.
    destruct ssr.
    - eexists. split; [reflexivity|]. intros [H|[]]. discriminate.
    - destruct lstat_mtimeUTC as [[t|]|e].
      + destruct (sameHeader _ t); eexists; (split; [reflexivity|]);
          simpl; intuition discriminate.
      + eexists. split; [reflexivity|]. simpl; intuition discriminate.
      + eexists. split; [reflexivity|]. simpl; intuition discriminate. }
  assert (Hany : exists cs, snd (fetch req ctx options w) = logged (ready w) cs
                            /\ ~ In CallInitWasm cs).
  { rewrite fetch_paths.
    destruct (ssrHandler options) as [h|]; [|apply Hrespond].
    destruct (initSSR req ctx (routes options)) as [[url modules]|e].
    - destruct (firstRedirect modules) as [r|].
      + exists []. simpl. rewrite logged_nil. auto.
      + destruct (Hrespond req options (localsAfter options h url modules initialHeaders)
                    (logged (ready w)
                       [CallSsrHandler {| ctx_url := url; ctx_modules := modules;
                                          headCollection := [] |}]))
          as [cs [Hcs Hno]].
        rewrite Hcs, logged_logged. eexists. split; [reflexivity|].
        intros [H|H]; [discriminate | now apply Hno].
    - exists []. simpl. rewrite logged_nil. auto. }
  destruct Hany as [cs [Hcs Hno]]. split.
  - exists cs. split; [|exact Hno].
    rewrite Hcs. unfold logged. cbn [calls]. now rewrite calls_ready, <- app_assoc.
  - intros Hset. rewrite Hcs. unfold logged. cbn [lolHtmlReady].
    now rewrite (ready_ready w Hset).
Qed.

End FetchPaths.

(** X10, on a page of the demo site, the rewriter being initialised. *)
Lemma initialisation_only_when_unset_witness :
  ~ In CallInitWasm
      (calls (snd (fetch (P := Demo.platform) (Demo.request "/hello") []
                     (Demo.options Demo.site false (Some (Demo.renders "<p>hello</p>")))
                     Demo.world)))
  /\ lolHtmlReady
       (snd (fetch (P := Demo.platform) (Demo.request "/hello") []
               (Demo.options Demo.site false (Some (Demo.renders "<p>hello</p>")))
               Demo.world)) = true.
Proof.
  destruct (initialisation_only_when_unset (P := Demo.platform) (Demo.request "/hello") []
              (Demo.options Demo.site false (Some (Demo.renders "<p>hello</p>")))
              Demo.world) as [[cs [Hcalls Hnone]] Hflag].
  split; [|exact (Hflag eq_refl)].
  rewrite Hcalls. exact Hnone.
Defined.

(** X9, on the redirect of the demo. *)
Lemma response_kinds_witness :
  (res_body {| res_body := None; res_status := 302;
               res_headers := [("location", "/login")] |} <> None
   /\ res_status {| res_body := None; res_status := 302;
                    res_headers := [("location", "/login")] |} = 200
   /\ Headers_get (res_headers {| res_body := None; res_status := 302;
                                  res_headers := [("location", "/login")] |})
        "Content-Type"
      = Some "text/html; charset=utf-8"
   /\ length (filter (named "Cache-Control")
                (res_headers {| res_body := None; res_status := 302;
                                res_headers := [("location", "/login")] |})) = 1%nat)
  \/ (res_body {| res_body := None; res_status := 302;
                  res_headers := [("location", "/login")] |} = None
      /\ ((res_status {| res_body := None; res_status := 302;
                         res_headers := [("location", "/login")] |} = 304
           /\ res_headers {| res_body := None; res_status := 302;
                             res_headers := [("location", "/login")] |} = [])
          \/ (300 <= res_status {| res_body := None; res_status := 302;
                                   res_headers := [("location", "/login")] |} < 400
              /\ Headers_has (res_headers {| res_body := None; res_status := 302;
                                             res_headers := [("location", "/login")] |})
                   "Location" = true))).
Proof.
  apply (response_kinds (P := Demo.platform) (Demo.request "/old") []
           (Demo.options [Demo.movedRoute] false (Some (Demo.renders "<p>old</p>")))
           Demo.world).
  reflexivity.
Defined.

Section FetchMore.
Context {P : Platform}.

(** X11.  Once the render callback has returned a string or thrown, the
    response is a 200 page whatever the request headers say: the template
    file is not examined, no [Last-Modified] is sent and
    [If-Modified-Since] is never answered with a 304. *)
Theorem rendered_response_is_unconditional (req : Request) (ctx : FetchContext)
    (options : RenderOptions) (h : SSRContext -> RenderOutcome) (url : URL)
    (modules : list SSRModule) (w : World) :
  ssrHandler options = Some h ->
  initSSR req ctx (routes options) = Ok (url, modules) ->
  firstRedirect modules = None ->
  completion (h {| ctx_url := url; ctx_modules := modules; headCollection := [] |})
  <> Ok None ->
  exists body value selectors,
    fetch req ctx options w
    = (Ok {| res_body := Some body; res_status := 200;
             res_headers := Headers_append initialHeaders "Cache-Control" value |},
       logged (ready w)
         [CallSsrHandler {| ctx_url := url; ctx_modules := modules;
                            headCollection := [] |};
          CallRewriterWrite selectors])
    /\ Headers_has (Headers_append initialHeaders "Cache-Control" value) "Last-Modified"
       = false.
Proof.
  intros Hh Hinit Hred Hdone.
  rewrite (fetch_rendered req ctx options h url modules w Hh Hinit Hred).
  destruct (localsAfter_cases options h url modules)
    as [[_ Hskip] | [value [regs [-> _]]]]; [contradiction|].
  rewrite respond_after_render, logged_logged.
  eexists. exists value. eexists. split; reflexivity.
Qed.

Lemma firstRedirect_skips (before : list SSRModule) (rest : list SSRModule) :
  Forall (fun m => redirect m = None) before ->
  firstRedirect (before ++ rest) = firstRedirect rest.
Proof.
  unfold firstRedirect. induction 1 as [|m ms Hm _ IH]; simpl; [reflexivity|].
  rewrite Hm. exact IH.
Qed.

(** X12.  When several modules carry a redirect, the first in the order of
    the module list decides the response. *)
Theorem first_redirect_wins (req : Request) (ctx : FetchContext)
    (options : RenderOptions) (h : SSRContext -> RenderOutcome) (url : URL)
    (before after : list SSRModule) (m : SSRModule) (r : Redirect) (w : World) :
  ssrHandler options = Some h ->
  initSSR req ctx (routes options) = Ok (url, (before ++ m :: after)%list) ->
  Forall (fun m' => redirect m' = None) before ->
  redirect m = Some r ->
  fetch req ctx options w
  = (Ok {| res_body := None; res_status := redirect_status r;
           res_headers := redirect_headers r |}, ready w).
Proof.
  intros Hh Hinit Hbefore Hr.
  apply (fetch_redirected req ctx options h url _ r w Hh Hinit).
  rewrite (firstRedirect_skips before _ Hbefore). unfold firstRedirect. simpl.
  now rewrite Hr.
Qed.

(** X13.  On the static template path the answer is a 304 exactly when the
    template has a modification time and [If-Modified-Since] is equal to
    it. *)
Theorem not_modified_iff (req : Request) (ctx : FetchContext) (options : RenderOptions)
    (mtime : option string) (w : World) :
  ssrHandler options = None ->
  lstat_mtimeUTC = Ok mtime ->
  exists response,
    fst (fetch req ctx options w) = Ok response
    /\ (res_status response = 304
        <-> exists t, mtime = Some t
                      /\ Headers_get (req_headers req) "If-Modified-Since" = Some t).
Proof.
  intros Hh Hstat. rewrite (fetch_without_handler req ctx options w Hh).
  rewrite (respond_static req options mtime _ Hstat).
  exists (staticResponse req options mtime). split; [reflexivity|].
  unfold staticResponse. destruct mtime as [t|].
  - unfold sameHeader.
    destruct (Headers_get (req_headers req) "If-Modified-Since") as [v|].
    + destruct (String.eqb_spec v t) as [->|Hne]; simpl.
      * split; [|reflexivity]. intros _. now exists t.
      * split; [discriminate|]. intros [t' [Ht Hv]]. congruence.
    + simpl. split; [discriminate|]. intros [t' [_ Hv]]. discriminate.
  - simpl. split; [discriminate|]. intros [t' [Ht _]]. discriminate.
Qed.

(** X14.  When no render took place and the template file cannot be
    examined, the failure of [Deno.lstat] is the outcome of [fetch]: there
    is no response and the rewriter is not run. *)
Theorem template_failure_propagates (req : Request) (ctx : FetchContext)
    (options : RenderOptions) (e : JsError) (w : World) :
  ssrHandler options = None ->
  lstat_mtimeUTC = Throw e ->
  fetch req ctx options w = (Throw e, logged (ready w) [CallLstat]).
Proof.
  intros Hh Hstat. rewrite (fetch_without_handler req ctx options w Hh).
  rewrite respond_paths. now rewrite Hstat.
Qed.


Lemma styleOf_shape (dev : bool) (m : Module) (s : string) :
  styleOf dev m = Ok s ->
  s = "" \/ exists css, s = styleTag (specifier m) css.
Proof.
  unfold styleOf. destruct (readTextFile (specifier m)) as [rawCode|e]; simpl;
    [|discriminate].
  destruct (endsWith (specifier m) ".css").
  - destruct (bundleCSS (specifier m) rawCode (negb dev)) as [code|e]; simpl;
      [|discriminate].
    intros H. inversion H. right. now exists code.
  - destruct (inlineCSS m).
    + destruct (unoGenerate rawCode (specifier m) (negb dev)) as [css|e]; simpl;
        [|discriminate].
      destruct (isFilledString css); intros H; inversion H; [right; now exists css | now left].
    + intros H. inversion H. now left.
Qed.

Lemma styleModules_without_graph (modules : list SSRModule) :
  serverDependencyGraph = None -> styleModules modules = [].
Proof.
  intros Hgraph. unfold styleModules. rewrite Hgraph.
  induction modules as [|m rest IH]; simpl; [reflexivity | exact IH].
Qed.

(** X16.  The collected styles are one entry per style dependency, in the
    order the dependencies are found, without removing duplicates; an
    entry is empty or a [style] tag carrying the specifier of its
    dependency.  The dependencies are CSS files and modules with inline
    CSS; without a dependency graph there are none and no file is read. *)
Theorem styles_follow_dependencies (dev : bool) (modules : list SSRModule)
    (styles : list string) :
  collectStyles dev modules = Ok styles ->
  Forall2 (fun m s => s = "" \/ exists css, s = styleTag (specifier m) css)
    (styleModules modules) styles
  /\ Forall (fun m => inlineCSS m = true \/ endsWith (specifier m) ".css" = true)
       (styleModules modules)
  /\ (serverDependencyGraph = None -> styles = []).
Proof.
  intros Hcollect.
  assert (Hall : Promise_all (styleOf dev) (styleModules modules) = Ok styles).
  { unfold collectStyles in Hcollect. destruct modules as [|m rest]; [|exact Hcollect].
    inversion Hcollect. reflexivity. }
  split; [|split].
  - apply Promise_all_Forall2 in Hall. clear Hcollect.
    induction Hall as [|m s ms ss Hm _ IH]; [constructor|].
    constructor; [now apply (styleOf_shape dev) | exact IH].
  - apply Forall_forall. intros m Hm. unfold styleModules in Hm.
    apply in_flat_map in Hm. destruct Hm as [ssrModule [_ Hm]].
    destruct serverDependencyGraph as [walk|]; [|contradiction].
    apply filter_In in Hm. destruct Hm as [_ Hstyle].
    unfold isStyleModule in Hstyle. now apply orb_prop in Hstyle.
  - intros Hgraph. rewrite (styleModules_without_graph modules Hgraph) in Hall.
    inversion Hall. reflexivity.
Qed.

End FetchMore.

(** X11, on a rendered page of the demo site. *)
Lemma rendered_response_is_unconditional_witness :
  exists body value selectors,
    fetch (P := Demo.platform) (Demo.request "/hello") []
      (Demo.options Demo.site false (Some (Demo.renders "<p>hello</p>"))) Demo.world
    = (Ok {| res_body := Some body; res_status := 200;
             res_headers := Headers_append initialHeaders "Cache-Control" value |},
       logged (ready Demo.world)
         [CallSsrHandler {| ctx_url := req_url (Demo.request "/hello");
                            ctx_modules := [Demo.appModule; Demo.slugModule "/hello"];
                            headCollection := [] |};
          CallRewriterWrite selectors])
    /\ Headers_has (Headers_append initialHeaders "Cache-Control" value) "Last-Modified"
       = false.
Proof.
  apply (rendered_response_is_unconditional (P := Demo.platform)
           (Demo.request "/hello") []
           (Demo.options Demo.site false (Some (Demo.renders "<p>hello</p>")))
           (Demo.renders "<p>hello</p>") (req_url (Demo.request "/hello"))
           [Demo.appModule; Demo.slugModule "/hello"] Demo.world).
  - reflexivity.
  - reflexivity.
  - reflexivity.
  - discriminate.
Defined.

(** X12, on the demo redirect below the root layout. *)
Lemma first_redirect_wins_witness :
  fetch (P := Demo.platform) (Demo.request "/old") []
    (Demo.options [Demo.appRoute; Demo.movedRoute] false
       (Some (Demo.renders "<p>old</p>")))
    Demo.world
  = (Ok {| res_body := None; res_status := 302;
           res_headers := [("location", "/login")] |}, ready Demo.world).
Proof.
  apply (first_redirect_wins (P := Demo.platform) (Demo.request "/old") []
           (Demo.options [Demo.appRoute; Demo.movedRoute] false
              (Some (Demo.renders "<p>old</p>")))
           (Demo.renders "<p>old</p>") (req_url (Demo.request "/old"))
           [Demo.appModule] [] Demo.movedModule
           {| redirect_headers := [("location", "/login")]; redirect_status := 302 |}
           Demo.world).
  - reflexivity.
  - reflexivity.
  - constructor; [reflexivity | constructor].
  - reflexivity.
Defined.

(** X13, on the demo site without a render callback. *)
Lemma not_modified_iff_witness :
  exists response,
    fst (fetch (P := Demo.platform) (Demo.request "/hello") []
           (Demo.options Demo.site false None) Demo.world) = Ok response
    /\ (res_status response = 304
        <-> exists t, Some "Thu, 01 Jan 2026 00:00:00 GMT" = Some t
                      /\ Headers_get (req_headers (Demo.request "/hello"))
                           "If-Modified-Since" = Some t).
Proof.
  apply (not_modified_iff (P := Demo.platform) (Demo.request "/hello") []
           (Demo.options Demo.site false None)
           (Some "Thu, 01 Jan 2026 00:00:00 GMT") Demo.world); reflexivity.
Defined.

(** X14, on the platform without a template file. *)
Lemma template_failure_propagates_witness :
  fetch (P := Demo.missingTemplate) (Demo.request "/hello") []
    (Demo.options Demo.site false None) Demo.world
  = (Throw {| message := "./index.html"; stack := "Error: ./index.html" |},
     logged (ready Demo.world) [CallLstat]).
Proof.
  apply (template_failure_propagates (P := Demo.missingTemplate)
           (Demo.request "/hello") [] (Demo.options Demo.site false None)
           {| message := "./index.html"; stack := "Error: ./index.html" |} Demo.world);
    reflexivity.
Defined.


(** X16, on the platform with a readable style sheet. *)
Lemma styles_follow_dependencies_witness :
  Forall2 (fun m s => s = "" \/ exists css, s = styleTag (specifier m) css)
    (styleModules (P := Demo.readableStyles) [Demo.appModule])
    [styleTag "./style/app.css" "body{margin:0}"]
  /\ Forall (fun m => inlineCSS m = true \/ endsWith (specifier m) ".css" = true)
       (styleModules (P := Demo.readableStyles) [Demo.appModule])
  /\ (serverDependencyGraph (Platform := Demo.readableStyles) = None ->
      [styleTag "./style/app.css" "body{margin:0}"] = []).
Proof.
  apply (styles_follow_dependencies (P := Demo.readableStyles) false [Demo.appModule]
           [styleTag "./style/app.css" "body{margin:0}"]).
  reflexivity.
Defined.

(* ================================================================== *)
(** * Further properties of the cache policy and of the handlers *)

Lemma filter_idempotent {A} (f : A -> bool) (xs : list A) :
  filter f (filter f xs) = filter f xs.
Proof.
  induction xs as [|x rest IH]; simpl; [reflexivity|].
  destruct (f x) eqn:Hfx; simpl; [now rewrite Hfx, IH | exact IH].
Qed.

(** X17.  Modules without a TTL (no [dataCacheTtl], [NaN], zero or
    negative) do not count: the header is that of the modules with a TTL
    alone.  A cacheable header always carries the TTL of one of the
    modules, and that TTL is above 0. *)
Theorem max_age_comes_from_a_module (modules : list SSRModule) :
  cacheControl (filter hasTtl modules) = cacheControl modules
  /\ (cacheControl modules = nonCacheable
      \/ exists m t,
           In m modules
           /\ dataCacheTtl m = Some t
           /\ number_gtb t (Fin 0) = true
           /\ cacheControl modules = "public, max-age=" +:+ number_toString t).
Proof.
  split.
  - unfold cacheControl, ttlsOf. now rewrite filter_idempotent.
  - assert (Hfrom : forall t, In t (ttlsOf modules) ->
               cacheControl modules = "public, max-age=" +:+ number_toString t ->
               exists m t',
                 In m modules /\ dataCacheTtl m = Some t'
                 /\ number_gtb t' (Fin 0) = true
                 /\ cacheControl modules = "public, max-age=" +:+ number_toString t').
    { intros t Ht Heq. apply ttlsOf_spec in Ht.
      destruct Ht as [m [Hin [Hm [_ Hpos]]]]. exists m, t. auto. }
    destruct (ttlsOf modules) as [|t [|t' rest]] eqn:Httl.
    + left. unfold cacheControl. now rewrite Httl.
    + right. apply (Hfrom t); [now left|]. unfold cacheControl. now rewrite Httl.
    + right.
      destruct (Math_min_least (ttlsOf modules) (ttlsOf_not_NaN modules)) as [Hin _].
      { rewrite Httl. discriminate. }
      rewrite Httl in Hin. apply (Hfrom _ Hin).
      unfold cacheControl. now rewrite Httl.
Qed.

Section HandlerFacts.
Context {P : Platform}.


(** A handler bound to an element name runs on the elements of that name. *)
Lemma fireOne_hit (doc : list Node) (path : list nat) (flags : HandlerFlags)
    (el : Element) (selector : string) (h : Handler) :
  isElementName selector = true ->
  fireOne doc path selector (flags, el) (selector, h) = h flags el.
Proof.
  intros Hname. unfold fireOne, selects. cbn [fst snd].
  now rewrite Hname, String.eqb_refl.
Qed.



Lemma find_setAttr_other (attrs : Attributes) (name other value : string) :
  name <> other ->
  find (fun kv => String.eqb (fst kv) name) (setAttr attrs other value)
  = find (fun kv => String.eqb (fst kv) name) attrs.
Proof.
  intros Hne. induction attrs as [|kv rest IH]; simpl.
  - destruct (String.eqb_spec other name); [congruence | reflexivity].
  - destruct (String.eqb_spec (fst kv) other) as [Heq|Hdiff]; simpl.
    + destruct (String.eqb_spec other name); [congruence|].
      destruct (String.eqb_spec (fst kv) name); [congruence | reflexivity].
    + destruct (String.eqb (fst kv) name); [reflexivity | exact IH].
Qed.

(** What [scriptHandler] does, by the type of the script and the flag. *)
Lemma scriptHandler_cases (flags : HandlerFlags) (el : Element) :
  exists el1,
    content_after el1 = content_after el
    /\ scriptHandler flags el
       = if (isModuleType el && negb (nomoduleInserted flags))%bool
         then ({| nomoduleInserted := true; handled := handled flags |},
               after el1 nomoduleScript)
         else (flags, el1).
Proof.
  unfold scriptHandler.
  set (el1 := match getAttribute el "src" with
              | Some src =>
                  if (isFilledString src && negb (isLikelyHttpURL src))%bool
                  then setAttribute el "src" (cleanPath src)
                  else el
              | None => el
              end).
  assert (Hafter : content_after el1 = content_after el).
  { unfold el1. destruct (getAttribute el "src") as [src|]; [|reflexivity].
    now destruct (isFilledString src && negb (isLikelyHttpURL src))%bool. }
  assert (Htype : isModuleType el1 = isModuleType el).
  { unfold el1. destruct (getAttribute el "src") as [src|]; [|reflexivity].
    destruct (isFilledString src && negb (isLikelyHttpURL src))%bool; [|reflexivity].
    unfold isModuleType, getAttribute, setAttribute. cbn [attributes].
    rewrite find_setAttr_other; [reflexivity | discriminate]. }
  exists el1. split; [exact Hafter|]. now rewrite Htype.
Qed.

Lemma visitAll_app (h : Handler) (flags : HandlerFlags) (xs ys : list Element) :
  visitAll h flags (xs ++ ys)
  = (fst (visitAll h (fst (visitAll h flags xs)) ys),
     (snd (visitAll h flags xs) ++ snd (visitAll h (fst (visitAll h flags xs)) ys))%list).
Proof.
  revert flags. induction xs as [|x rest IH]; intros flags; simpl.
  - now destruct (visitAll h flags ys).
  - now rewrite IH.
Qed.

(** Scripts that get no fallback: the flag and what follows them stay. *)
Lemma scriptHandler_quiet (flags : HandlerFlags) (els : list Element) :
  Forall (fun el => (isModuleType el && negb (nomoduleInserted flags))%bool = false) els ->
  fst (visitAll scriptHandler flags els) = flags
  /\ map content_after (snd (visitAll scriptHandler flags els)) = map content_after els.
Proof.
  induction 1 as [|el rest Hel _ [IH1 IH2]]; simpl; [now split|].
  destruct (scriptHandler_cases flags el) as [el1 [Hafter Heq]].
  rewrite Hel in Heq. rewrite Heq. simpl. rewrite IH1, IH2, Hafter. now split.
Qed.

(** X19.  Over the [script] elements of a document, the [nomodule]
    fallback script is inserted once: right after the first script of type
    [module], and after no other script, before it or behind it. *)
Theorem nomodule_fallback_once (flags : HandlerFlags) (before_ after_ : list Element)
    (el : Element) :
  nomoduleInserted flags = false ->
  Forall (fun e => isModuleType e = false) before_ ->
  isModuleType el = true ->
  nomoduleInserted (fst (visitAll scriptHandler flags (before_ ++ el :: after_))) = true
  /\ map content_after (snd (visitAll scriptHandler flags (before_ ++ el :: after_)))
     = (map content_after before_
        ++ (nomoduleScript :: content_after el) :: map content_after after_)%list.
Proof.
  intros Hflag Hbefore Hel. rewrite visitAll_app. cbn [fst snd].
  destruct (scriptHandler_quiet flags before_) as [Hf Hc].
  { apply Forall_forall. intros e He. rewrite Forall_forall in Hbefore.
    now rewrite (Hbefore e He). }
  rewrite Hf, map_app, Hc. simpl.
  destruct (scriptHandler_cases flags el) as [el1 [Hafter Heq]].
  rewrite Hel, Hflag in Heq. rewrite Heq. simpl.
  destruct (scriptHandler_quiet {| nomoduleInserted := true; handled := handled flags |}
              after_) as [Hf' Hc'].
  { apply Forall_forall. intros e _. simpl. apply andb_false_r. }
  rewrite Hf', Hc', Hafter. now split.
Qed.

Lemma commonHandler_done (table : list Route) (dev : bool) (ws : option string)
    (flags : HandlerFlags) (els : list Element) :
  handled flags = true ->
  visitAll (commonHandler table dev ws) flags els = (flags, els).
Proof.
  intros Hflag. induction els as [|el rest IH]; simpl; [reflexivity|].
  rewrite (commonHandler_handled table dev ws flags el Hflag). simpl. now rewrite IH.
Qed.

(** X20.  In development mode, over the [head] and [body] elements of a
    document the shared handler works once: the first element gets the
    route manifest (when there are routes), the websocket-URL script (when
    one is configured) and the hot-reload script, in this order; the
    elements after it are left as they are. *)
Theorem dev_scripts_once (table : list Route) (ws : option string)
    (flags : HandlerFlags) (el : Element) (rest : list Element) :
  handled flags = false ->
  handled (fst (visitAll (commonHandler table true ws) flags (el :: rest))) = true
  /\ map content_appended
       (snd (visitAll (commonHandler table true ws) flags (el :: rest)))
     = ((content_appended el
         ++ match table with
            | [] => []
            | _ :: _ => [routeManifestScript table]
            end
         ++ match ws with
            | Some url => if isFilledString url then [hmrWebSocketUrlScript url] else []
            | None => []
            end
         ++ [hmrDeclineScript])
        :: map content_appended rest)%list
  /\ (exists el', snd (visitAll (commonHandler table true ws) flags (el :: rest))
                  = el' :: rest).
Proof.
  intros Hflag.
  assert (Hcall : exists el',
             commonHandler table true ws flags el
             = ({| nomoduleInserted := nomoduleInserted flags; handled := true |}, el')
             /\ content_appended el'
                = (content_appended el
                   ++ match table with
                      | [] => []
                      | _ :: _ => [routeManifestScript table]
                      end
                   ++ match ws with
                      | Some url =>
                          if isFilledString url then [hmrWebSocketUrlScript url] else []
                      | None => []
                      end
                   ++ [hmrDeclineScript])%list).
  { unfold commonHandler. rewrite Hflag. eexists. split; [reflexivity|].
    unfold append. cbn [content_appended].
    destruct table as [|r table']; destruct ws as [url|];
      try destruct (isFilledString url);
      cbn [content_appended app]; rewrite <- ?app_assoc; reflexivity. }
  destruct Hcall as [el' [Hcall Happended]].
  cbn [visitAll]. rewrite Hcall. cbn [fst snd].
  rewrite (commonHandler_done table true ws
             {| nomoduleInserted := nomoduleInserted flags; handled := true |} rest eq_refl).
  cbn [fst snd map]. rewrite Happended.
  split; [reflexivity|]. split; [reflexivity | now exists el'].
Qed.

(** X21.  The [link] handler leaves alone a link without [href] and a link
    to an absolute http(s) URL, in any mode.  Outside development mode it
    changes nothing but the attributes of a link: it inserts no script. *)
Theorem link_handler_scope (flags : HandlerFlags) (el : Element) :
  (forall dev, getAttribute el "href" = None -> linkHandler dev flags el = (flags, el))
  /\ (forall dev href,
        getAttribute el "href" = Some href ->
        isLikelyHttpURL href = true ->
        linkHandler dev flags el = (flags, el))
  /\ fst (linkHandler false flags el) = flags
  /\ content_before (snd (linkHandler false flags el)) = content_before el
  /\ content_after (snd (linkHandler false flags el)) = content_after el
  /\ content_appended (snd (linkHandler false flags el)) = content_appended el
  /\ replacement (snd (linkHandler false flags el)) = replacement el
  /\ removed (snd (linkHandler false flags el)) = removed el.
Proof.
  split; [|split].
  - intros dev Hnone. unfold linkHandler. now rewrite Hnone.
  - intros dev href Hhref Hurl. unfold linkHandler. rewrite Hhref, Hurl.
    destruct (isFilledString href); [|reflexivity].
    now rewrite andb_false_r.
  - unfold linkHandler. destruct (getAttribute el "href") as [href|]; [|now repeat split].
    destruct (isFilledString href); [|now repeat split].
    rewrite andb_false_r. destruct (isLikelyHttpURL href); now repeat split.
Qed.

End HandlerFacts.

(** On a run of elements with one selector and one handler bound to it, the
    pass leaves the flags that the successive calls of the handler leave. *)
Lemma pass_visits_in_order {P : Platform} (selector : string) (h : Handler)
    (doc : list Node) (parent : list nat) (index : nat)
    (attrs : list Attributes) (flags : HandlerFlags) :
  isElementName selector = true ->
  fst (rewriteNodes [(selector, h)] doc parent index
         (map (fun a => VoidElem selector a) attrs) flags)
  = fst (visitAll h flags (map (newElement selector) attrs)).
Proof.
  intros Hname. revert index flags.
  induction attrs as [|a rest IH]; intros index flags; [reflexivity|].
  cbn [map rewriteNodes visitAll rewriteNode fst snd]. unfold fire. cbn [fold_left].
  change (tagName (newElement selector a)) with selector.
  rewrite (fireOne_hit doc _ flags (newElement selector a) selector h Hname).
  apply IH.
Qed.


(** X19, on three scripts: a classic one, then two of type [module]. *)
Lemma nomodule_fallback_once_witness :
  nomoduleInserted
    (fst (visitAll (scriptHandler (P := Demo.platform))
            {| nomoduleInserted := false; handled := false |}
            ([newElement "script" [("src", "/legacy.js")]]
             ++ newElement "script" [("type", "module"); ("src", "/main.js")]
                :: [newElement "script" [("type", "module"); ("src", "/more.js")]])))
  = true
  /\ map content_after
       (snd (visitAll (scriptHandler (P := Demo.platform))
               {| nomoduleInserted := false; handled := false |}
               ([newElement "script" [("src", "/legacy.js")]]
                ++ newElement "script" [("type", "module"); ("src", "/main.js")]
                   :: [newElement "script" [("type", "module"); ("src", "/more.js")]])))
     = (map content_after [newElement "script" [("src", "/legacy.js")]]
        ++ (nomoduleScript (P := Demo.platform)
            :: content_after
                 (newElement "script" [("type", "module"); ("src", "/main.js")]))
           :: map content_after
                [newElement "script" [("type", "module"); ("src", "/more.js")]])%list.
Proof.
  apply (nomodule_fallback_once (P := Demo.platform)
           {| nomoduleInserted := false; handled := false |}
           [newElement "script" [("src", "/legacy.js")]]
           [newElement "script" [("type", "module"); ("src", "/more.js")]]
           (newElement "script" [("type", "module"); ("src", "/main.js")])).
  - reflexivity.
  - constructor; [reflexivity | constructor].
  - reflexivity.
Defined.

(** X20, on the [head] and the [body] of a document, with the demo site
    as route table and a websocket URL. *)
Lemma dev_scripts_once_witness :
  handled
    (fst (visitAll (commonHandler (P := Demo.platform) Demo.site true
                      (Some "ws://localhost:8080"))
            {| nomoduleInserted := false; handled := false |}
            (newElement "head" [] :: [newElement "body" []])))
  = true
  /\ map content_appended
       (snd (visitAll (commonHandler (P := Demo.platform) Demo.site true
                         (Some "ws://localhost:8080"))
               {| nomoduleInserted := false; handled := false |}
               (newElement "head" [] :: [newElement "body" []])))
     = [[routeManifestScript (P := Demo.platform) Demo.site;
         hmrWebSocketUrlScript (P := Demo.platform) "ws://localhost:8080";
         hmrDeclineScript (P := Demo.platform)];
        []]
  /\ (exists el',
        snd (visitAll (commonHandler (P := Demo.platform) Demo.site true
                         (Some "ws://localhost:8080"))
               {| nomoduleInserted := false; handled := false |}
               (newElement "head" [] :: [newElement "body" []]))
        = el' :: [newElement "body" []]).
Proof.
  apply (dev_scripts_once (P := Demo.platform) Demo.site (Some "ws://localhost:8080")
           {| nomoduleInserted := false; handled := false |}
           (newElement "head" []) [newElement "body" []]).
  reflexivity.
Defined.
